(** * VaRA-Tool-Suite: experiment pipelines and the build-setup driver

  A shallow embedding of
  - [varats/tools/driver_build_setup.py] ([parse_string_to_build_type]),
  - [varats/experiments/taint_propagation.py] ([VaraMTFACheck.analyze],
    [VaRATaintPropagation.actions_for_project]),
  - [varats/experiments/CommitAnnotationReport.py]
    ([CommitAnnotationReport.actions_for_project]),
  with the file system, the spawned processes and the raised
  [ProcessExecutionError]s made explicit. *)

From Stdlib Require Import ZArith Ascii String List Lia Bool.
From stdpp Require Import base gmap strings list fin_maps.

Open Scope string_scope.
Open Scope list_scope.

(** ** Strings *)

Module Str.

(** [str.upper] restricted to the ASCII range: the letters [a]..[z]
    (codes 97..122) move to [A]..[Z]; every other character is kept. *)
Definition upper_ascii (c : ascii) : ascii :=
  let n := nat_of_ascii c in
  if (97 <=? n)%nat && (n <=? 122)%nat then ascii_of_nat (n - 32) else c.

Fixpoint upper (s : string) : string :=
  match s with
  | EmptyString => EmptyString
  | String c s' => String (upper_ascii c) (upper s')
  end.

(** The characters of a string ([list(s)]). *)
Definition chars (s : string) : list ascii := list_ascii_of_string s.

End Str.

(** ** [varats.vara_manager.BuildType]

    The enumeration is declared outside the modelled files; the members and
    their values are the ones the doctests of [parse_string_to_build_type]
    print. *)
Inductive BuildType : Set := DBG | DEV | OPT | PGO | DEV_SAN.

Definition BuildType_value (b : BuildType) : Z :=
  match b with
  | DBG => 1 | DEV => 2 | OPT => 3 | PGO => 4 | DEV_SAN => 5
  end%Z.

Section BuildSetup.

(** Python's [str.upper]. The function below only calls it and compares
    the result with five literals, so it is taken as a parameter; the
    instance used to run the doctests is [Str.upper]. *)
Variable upper : string -> string.

Definition parse_string_to_build_type (build_type : string) : BuildType :=
  let build_type := upper build_type in
  if String.eqb build_type "DBG" then DBG
  else if String.eqb build_type "DEV" then DEV
  else if String.eqb build_type "OPT" then OPT
  else if String.eqb build_type "PGO" then PGO
  else if String.eqb build_type "DEV-SAN" then DEV_SAN
  else DEV.

End BuildSetup.

(** ** Report artifacts *)

Module FSE.

(** Modelled from the spec: [varats.data.report.FileStatusExtension] is not
    among the modelled files. The spec's data model gives the extension kind
    of a report artifact as one of Success, Failed and CompileError. *)
Inductive t : Set := Success | Failed | CompileError.

#[global] Instance eq_dec : EqDecision t.
Proof. solve_decision. Defined.

(** Modelled from the spec: the kind suffix that [get_file_name] encodes in
    the file name; the spec names the three kinds and requires the suffixes
    to tell them apart. *)
Definition suffix (k : t) : string :=
  match k with
  | Success => "Success"
  | Failed => "Failed"
  | CompileError => "CompileError"
  end.

End FSE.

Module TPR.

(** Modelled from the spec: [TaintPropagationReport.FILE_TYPE] is declared in
    [varats.data.reports.taint_report], outside the modelled files; it is the
    optional file-type suffix of a report name. *)
Definition FILE_TYPE : string := "txt".

(** Modelled from the spec: [TaintPropagationReport.get_file_name] is
    declared outside the modelled files. Report names follow the spec's
    layout [{binary_name}-{project_version}-{run_id}.{kind-suffix}[.{ext}]]. *)
Definition get_file_name (project_name binary_name project_version
    project_uuid : string) (extension_type : FSE.t)
    (file_ext : option string) : string :=
  binary_name +:+ "-" +:+ project_version +:+ "-" +:+ project_uuid +:+ "."
  +:+ FSE.suffix extension_type
  +:+ match file_ext with Some e => "." +:+ e | None => "" end.

End TPR.

(** ** Processes, the file system and [plumbum] commands *)

(** [plumbum.ProcessExecutionError]: raised by a command whose exit code is
    not the expected 0. *)
Record ProcessExecutionError : Set := {
  pe_argv : list string;
  pe_retcode : Z;
  pe_stdout : string;
  pe_stderr : string
}.

(** What a file holds: raw bytes, or a failure report with the captured
    error and the declared timeout. *)
Inductive Content : Set :=
| Raw (data : string)
| FailureReport (ex : ProcessExecutionError) (timeout_duration : option string).

(** The part of the machine the experiments touch: regular files by path,
    directories, and the argument vectors of the processes spawned so far
    (oldest first). *)
Record World : Type := {
  files : gmap string Content;
  dirs : gset string;
  spawned : list (list string)
}.

Definition write (path : string) (c : Content) (w : World) : World :=
  {| files := <[path := c]> (files w); dirs := dirs w; spawned := spawned w |}.

Definition unlink (path : string) (w : World) : World :=
  {| files := delete path (files w); dirs := dirs w; spawned := spawned w |}.

Definition spawn (argv : list string) (w : World) : World :=
  {| files := files w; dirs := dirs w; spawned := spawned w ++ [argv] |}.

Definition is_file (w : World) (path : string) : bool :=
  bool_decide (is_Some (files w !! path)).

(** [os.path.exists] *)
Definition path_exists (w : World) (path : string) : bool :=
  is_file w path || bool_decide (path ∈ dirs w).

(** A unit of work that may raise a [ProcessExecutionError]: [None] is a
    normal return, [Some ex] the raised error. *)
Definition Fallible : Type := World -> World * option ProcessExecutionError.

(** What one finished process reports. [duration] is the wall-clock time it
    ran, in seconds. *)
Record ProcResult : Set := {
  duration : N;
  retcode : Z;
  stdout : string;
  stderr : string
}.

(** [plumbum] command objects: [exe[args]], [src | dst] and [cmd > file]. *)
Inductive Cmd : Set :=
| BoundCommand (argv : list string)
| Pipeline (srccmd dstcmd : Cmd)
| StdoutRedirection (cmd : Cmd) (file : string).

Fixpoint formulate (c : Cmd) : list string :=
  match c with
  | BoundCommand argv => argv
  | Pipeline a b => formulate a ++ ["|"] ++ formulate b
  | StdoutRedirection c f => formulate c ++ [">"; f]
  end.

(** An argument of [exe[...]] is a string or a command; a command argument
    is spliced in as its own argument vector. *)
Inductive Arg : Set :=
| S_ (s : string)
| C_ (c : Cmd).

Definition formulate_arg (a : Arg) : list string :=
  match a with
  | S_ s => [s]
  | C_ c => formulate c
  end.

Definition bound (exe : string) (args : list Arg) : Cmd :=
  BoundCommand (exe :: concat (map formulate_arg args)).

(** The processes of a command, in pipeline order. *)
Fixpoint stages (c : Cmd) : list (list string) :=
  match c with
  | BoundCommand argv => [argv]
  | Pipeline a b => stages a ++ stages b
  | StdoutRedirection c _ => stages c
  end.

(** *** The [timeout] utility *)

Definition digit (c : ascii) : option N :=
  let n := N_of_ascii c in
  if (48 <=? n)%N && (n <=? 57)%N then Some (n - 48)%N else None.

Definition unit_seconds (c : ascii) : option N :=
  if Ascii.eqb c "s" then Some 1%N
  else if Ascii.eqb c "m" then Some 60%N
  else if Ascii.eqb c "h" then Some 3600%N
  else if Ascii.eqb c "d" then Some 86400%N
  else None.

Fixpoint parse_duration_from (s : string) (acc : N) (seen : bool)
    : option N :=
  match s with
  | EmptyString => if seen then Some acc else None
  | String c s' =>
      match digit c with
      | Some d => parse_duration_from s' (10 * acc + d)%N true
      | None =>
          if seen && String.eqb s' ""
          then option_map (N.mul acc) (unit_seconds c)
          else None
      end
  end.

(** A duration argument of [timeout]: a whole number with an optional unit
    [s], [m], [h] or [d]; the result is in seconds. *)
Definition parse_duration (s : string) : option N :=
  parse_duration_from s 0%N false.

(** A stage is under a time limit when its process is [timeout]. *)
Definition time_limit (argv : list string) : option N :=
  match argv with
  | exe :: d :: _ => if String.eqb exe "timeout" then parse_duration d else None
  | _ => None
  end.

Section Processes.

(** The external tools ([opt], [FileCheck], ...): what a process with the
    given argument vector and standard input does. *)
Variable tool : list string -> string -> ProcResult.

(** Running one process. [timeout d cmd...] runs [cmd...]: when it is still
    running after [d] it is killed and [timeout] exits with 124, otherwise
    [timeout] exits as the command did; a duration of 0 disables the limit
    and an invalid duration is exit code 125. *)
Fixpoint run_argv (argv : list string) (stdin : string) : ProcResult :=
  match argv with
  | exe :: d :: rest =>
      if String.eqb exe "timeout" then
        match parse_duration d with
        | Some limit =>
            let r := run_argv rest stdin in
            if (0 <? limit)%N && (limit <? duration r)%N
            then {| duration := limit; retcode := 124; stdout := "";
                    stderr := "" |}
            else r
        | None =>
            {| duration := 0; retcode := 125; stdout := ""; stderr := "" |}
        end
      else tool argv stdin
  | _ => tool argv stdin
  end.

(** [cmd.popen()] followed by waiting for the processes. A pipeline starts
    both sides, feeds the output of the source to the destination and
    reports [rc_dst or rc_src]; a redirection opens its file for writing
    (creating or truncating it) before the command starts. *)
Fixpoint run_cmd (c : Cmd) (stdin : string) (w : World)
    : World * ProcResult :=
  match c with
  | BoundCommand argv => (spawn argv w, run_argv argv stdin)
  | Pipeline a b =>
      let '(w1, ra) := run_cmd a stdin w in
      let '(w2, rb) := run_cmd b (stdout ra) w1 in
      (w2, {| duration := N.max (duration ra) (duration rb);
              retcode := if (retcode rb =? 0)%Z then retcode ra
                         else retcode rb;
              stdout := stdout rb;
              stderr := stderr rb |})
  | StdoutRedirection c f =>
      let w0 := write f (Raw "") w in
      let '(w1, r) := run_cmd c stdin w0 in
      (write f (Raw (stdout r)) w1,
       {| duration := duration r; retcode := retcode r; stdout := "";
          stderr := stderr r |})
  end.

(** The outcome of a command alone, without its effects on the world. *)
Fixpoint cmd_result (c : Cmd) (stdin : string) : ProcResult :=
  match c with
  | BoundCommand argv => run_argv argv stdin
  | Pipeline a b =>
      let ra := cmd_result a stdin in
      let rb := cmd_result b (stdout ra) in
      {| duration := N.max (duration ra) (duration rb);
         retcode := if (retcode rb =? 0)%Z then retcode ra else retcode rb;
         stdout := stdout rb;
         stderr := stderr rb |}
  | StdoutRedirection c f =>
      let r := cmd_result c stdin in
      {| duration := duration r; retcode := retcode r; stdout := "";
         stderr := stderr r |}
  end.

(** The error [cmd()] raises for a failed command. *)
Definition cmd_error (c : Cmd) : ProcessExecutionError :=
  let r := cmd_result c "" in
  {| pe_argv := formulate c; pe_retcode := retcode r; pe_stdout := stdout r;
     pe_stderr := stderr r |}.

(** [cmd()]: run the command and raise [ProcessExecutionError] unless the
    exit code is 0. *)
Definition call (c : Cmd) : Fallible := fun w =>
  let '(w', r) := run_cmd c "" w in
  if (retcode r =? 0)%Z then (w', None)
  else (w', Some {| pe_argv := formulate c; pe_retcode := retcode r;
                    pe_stdout := stdout r; pe_stderr := stderr r |}).

(** [mkdir("-p", folder)] *)
Definition mkdir_p (folder : string) : Fallible := fun w =>
  let w := spawn ["mkdir"; "-p"; folder] w in
  ({| files := files w; dirs := {[folder]} ∪ dirs w; spawned := spawned w |},
   None).

(** [rm(path)]: removes the file, or exits with 1 when there is none. *)
Definition rm (path : string) : Fallible := fun w =>
  let w := spawn ["rm"; path] w in
  if is_file w path then (unlink path w, None)
  else (w, Some {| pe_argv := ["rm"; path]; pe_retcode := 1; pe_stdout := "";
                   pe_stderr := "rm: cannot remove" |}).

End Processes.

(** ** Error handling ([varats.utils.experiment_util]) *)

(** Modelled from the spec: the class [PEErrorHandler] is declared in
    [varats.utils.experiment_util], outside the modelled files. It is built
    from the result folder, the name of the error file and, optionally, the
    command that ran and its declared timeout. *)
Record PEErrorHandler : Set := {
  result_folder : string;
  error_file_name : string;
  handler_run_cmd : option Cmd;
  handler_timeout_duration : option string
}.

(** Modelled from the spec: calling a [PEErrorHandler] (section 4.3, the
    failure branch) writes the failure report, with the captured error and the
    declared timeout, under the handler's file name in its result folder. *)
Definition handle (h : PEErrorHandler) (ex : ProcessExecutionError)
    (w : World) : World :=
  write (result_folder h +:+ "/" +:+ error_file_name h)
        (FailureReport ex (handler_timeout_duration h)) w.

(** Modelled from the spec: [exec_func_with_pe_error_handler] is declared in
    [varats.utils.experiment_util], outside the modelled files (section 4.3,
    [execute]). It runs the unit of work; on success nothing else is written,
    on a [ProcessExecutionError] the handler writes its report and the failure
    is signalled to the caller. Deleting the success artifact is left to the
    caller, as [VaraMTFACheck.analyze] does in its [except] clause. *)
Definition exec_func_with_pe_error_handler (func : Fallible)
    (handler : PEErrorHandler) : Fallible := fun w =>
  match func w with
  | (w', None) => (w', None)
  | (w', Some ex) => (handle handler ex w', Some ex)
  end.

(** Modelled from the spec: [FunctionPEErrorWrapper] is declared in
    [varats.utils.experiment_util], outside the modelled files. The wrapped
    callable behaves as [execute] of section 4.3 on the original one. *)
Definition FunctionPEErrorWrapper (func : Fallible)
    (handler : PEErrorHandler) : Fallible :=
  exec_func_with_pe_error_handler func handler.

(** ** Projects, settings and steps *)

(** The entries of [CFG] the experiments read. *)
Record Config : Set := {
  vara_result : string;   (* CFG["vara"]["result"] *)
  vara_outfile : string;  (* CFG["vara"]["outfile"] *)
  vara_prepare : string   (* CFG["vara"]["prepare"] *)
}.

(** [benchbuild] extensions, chained with [<<]. *)
Inductive Extension : Set :=
| RuntimeExtension | RunWithTime | RunCompiler | RunWLLVM | WithTimeout.

(** The attributes of a [benchbuild] project the experiments read or set. *)
Record Project : Type := {
  name : string;
  version : string;
  run_uuid : string;
  BIN_NAMES : list string;
  builddir : string;
  SRC_FILE : string;
  src_dir : string;
  cflags : list string;
  runtime_extension : list Extension;
  compiler_extension : list Extension;
  compile : Fallible
}.

(** The step objects the two experiments put into their action lists. Each
    holds the (shared, already updated) project object. *)
Inductive Step : Type :=
| Compile (project : Project)        (* benchbuild.utils.actions.Compile *)
| Clean (project : Project)          (* benchbuild.utils.actions.Clean *)
| Extract (project : Project)        (* varats.experiments.extract.Extract *)
| VaraMTFACheck (obj : option Project)
| Prepare (project : Project)        (* CommitAnnotationReport.Prepare *)
| CAR_Extract (project : Project)    (* CommitAnnotationReport.Extract *)
| Analyse (project : Project).       (* CommitAnnotationReport.Analyse *)

Inductive StepKind : Set :=
| KCompile | KClean | KExtract | KAnalysis | KPrepare.

#[global] Instance StepKind_eq_dec : EqDecision StepKind.
Proof. solve_decision. Defined.

(** Build, extract, analysis, cleanup: the role of a step in the pipeline. *)
Definition step_kind (s : Step) : StepKind :=
  match s with
  | Compile _ => KCompile
  | Clean _ => KClean
  | Extract _ | CAR_Extract _ => KExtract
  | VaraMTFACheck _ | Analyse _ => KAnalysis
  | Prepare _ => KPrepare
  end.

Definition count_kind (k : StepKind) (l : list Step) : nat :=
  length (filter (fun s => step_kind s = k) l).

(** Position of the first step of a kind ([list.index]). *)
Fixpoint index_kind (k : StepKind) (l : list Step) : option nat :=
  match l with
  | [] => None
  | s :: l' =>
      if decide (step_kind s = k) then Some 0
      else option_map S (index_kind k l')
  end.

Module ExtractStep.

(** Modelled from the spec: [Extract.BC_CACHE_FOLDER_TEMPLATE] is declared in
    [varats.experiments.extract], outside the modelled files. By section 6 the
    bitcode of a project lies under [{cache_root}/{project_name}/]. *)
Definition BC_CACHE_FOLDER_TEMPLATE (cache_dir project_name : string)
    : string :=
  cache_dir +:+ "/" +:+ project_name +:+ "/".

(** Modelled from the spec: [Extract.BC_FILE_TEMPLATE], declared with the
    former; by section 6 a bitcode file is named
    [{project_name}-{binary_name}-{version}.bc]. *)
Definition BC_FILE_TEMPLATE (project_name binary_name project_version
    : string) : string :=
  project_name +:+ "-" +:+ binary_name +:+ "-" +:+ project_version +:+ ".bc".

End ExtractStep.

(** ** [varats/experiments/taint_propagation.py] *)

Module TaintPropagation.

Section Experiment.

Variable tool : list string -> string -> ProcResult.
Variable CFG : Config.

(** [VaraMTFACheck.RESULT_FOLDER_TEMPLATE] *)
Definition RESULT_FOLDER_TEMPLATE (result_dir project_dir : string) : string :=
  result_dir +:+ "/" +:+ project_dir.

(** [VaraMTFACheck.FC_FILE_SOURCE_DIR] *)
Definition FC_FILE_SOURCE_DIR (project_builddir project_src project_name
    : string) : string :=
  project_builddir +:+ "/" +:+ project_src +:+ "/" +:+ project_name.

(** [VaraMTFACheck.EXPECTED_FC_FILE] *)
Definition EXPECTED_FC_FILE (binary_name : string) : string :=
  binary_name +:+ ".txt".

Definition timeout_duration : string := "8h".

Definition bc_cache_dir (project : Project) : string :=
  ExtractStep.BC_CACHE_FOLDER_TEMPLATE (vara_result CFG) (name project).

Definition vara_result_folder (project : Project) : string :=
  RESULT_FOLDER_TEMPLATE (vara_outfile CFG) (name project).

(** The empty success file of a binary. *)
Definition result_file (project : Project) (binary_name : string) : string :=
  TPR.get_file_name (name project) binary_name (version project)
    (run_uuid project) FSE.Success None.

(** The output file name of failed runs. *)
Definition error_file (project : Project) (binary_name : string) : string :=
  TPR.get_file_name (name project) binary_name (version project)
    (run_uuid project) FSE.Failed (Some TPR.FILE_TYPE).

Definition result_path (project : Project) (binary_name : string) : string :=
  vara_result_folder project +:+ "/" +:+ result_file project binary_name.

Definition error_path (project : Project) (binary_name : string) : string :=
  vara_result_folder project +:+ "/" +:+ error_file project binary_name.

(** The names a report artifact of the given kind can have for one
    identity: with or without the file-type suffix. *)
Definition artifact_names (project : Project) (binary_name : string)
    (k : FSE.t) : list string :=
  [TPR.get_file_name (name project) binary_name (version project)
     (run_uuid project) k None;
   TPR.get_file_name (name project) binary_name (version project)
     (run_uuid project) k (Some TPR.FILE_TYPE)].

(** The kinds of the outcome artifacts of one identity that are on disk. *)
Definition outcome_kinds (w : World) (project : Project)
    (binary_name : string) : list FSE.t :=
  List.filter
    (fun k =>
       existsb (fun n => is_file w (vara_result_folder project +:+ "/" +:+ n))
               (artifact_names project binary_name k))
    [FSE.Success; FSE.Failed; FSE.CompileError].

Definition vara_run_cmd (project : Project) (binary_name : string) : Cmd :=
  bound "opt"
    [S_ "-vara-CD"; S_ "-print-Full-MTFA";
     S_ (bc_cache_dir project +:+ "/" +:+
         ExtractStep.BC_FILE_TEMPLATE (name project) binary_name
           (version project));
     S_ "-o"; S_ "/dev/null"].

Definition file_check_cmd (project : Project) (binary_name : string) : Cmd :=
  bound "FileCheck"
    [S_ (FC_FILE_SOURCE_DIR (builddir project) (SRC_FILE project)
           (name project) +:+ EXPECTED_FC_FILE binary_name)].

(** [timeout[timeout_duration, vara_run_cmd] | file_check_cmd > result] *)
Definition cmd_chain (project : Project) (binary_name : string) : Cmd :=
  StdoutRedirection
    (Pipeline
       (bound "timeout" [S_ timeout_duration;
                         C_ (vara_run_cmd project binary_name)])
       (file_check_cmd project binary_name))
    (result_path project binary_name).

(** The two processes of the chain: the analysis under [timeout], and the
    verifier. *)
Definition analysis_stage (project : Project) (binary_name : string)
    : list string :=
  formulate (bound "timeout" [S_ timeout_duration;
                              C_ (vara_run_cmd project binary_name)]).

Definition verify_stage (project : Project) (binary_name : string)
    : list string :=
  formulate (file_check_cmd project binary_name).

(** What the chain of one binary reports, and what its last stage prints. *)
Definition chain_result (project : Project) (binary_name : string)
    : ProcResult :=
  cmd_result tool (cmd_chain project binary_name) "".

Definition chain_output (project : Project) (binary_name : string) : string :=
  stdout (run_argv tool (verify_stage project binary_name)
            (stdout (run_argv tool (analysis_stage project binary_name) ""))).


Definition error_handler (project : Project) (binary_name : string)
    : PEErrorHandler :=
  {| result_folder := vara_result_folder project;
     error_file_name := error_file project binary_name;
     handler_run_cmd := Some (cmd_chain project binary_name);
     handler_timeout_duration := Some timeout_duration |}.

(** The world after both processes of the chain have run: the redirection
    has created the success file and it holds what the verifier printed. *)
Definition after_chain (project : Project) (binary_name : string) (w : World)
    : World :=
  write (result_path project binary_name)
    (Raw (chain_output project binary_name))
    (spawn (verify_stage project binary_name)
       (spawn (analysis_stage project binary_name)
          (write (result_path project binary_name) (Raw "") w))).

(** The world after one round of the loop: as after the chain when it
    succeeded; otherwise with the failure report written and the success file
    removed by [rm]. *)
Definition after_binary (project : Project) (binary_name : string) (w : World)
    : World :=
  if (retcode (chain_result project binary_name) =? 0)%Z
  then after_chain project binary_name w
  else unlink (result_path project binary_name)
         (spawn ["rm"; result_path project binary_name]
            (handle (error_handler project binary_name)
               (cmd_error tool (cmd_chain project binary_name))
               (after_chain project binary_name w))).

(** One round of the loop over [project.BIN_NAMES]: run the chain under the
    error handler and remove the success file when it failed. *)
Definition analyze_binary (project : Project) (binary_name : string)
    : Fallible := fun w =>
  match exec_func_with_pe_error_handler
          (call tool (cmd_chain project binary_name))
          (error_handler project binary_name) w with
  | (w', None) => (w', None)
  | (w', Some _) => rm (result_path project binary_name) w'
  end.

Fixpoint analyze_loop (project : Project) (bin_names : list string)
    : Fallible := fun w =>
  match bin_names with
  | [] => (w, None)
  | binary_name :: rest =>
      match analyze_binary project binary_name w with
      | (w', None) => analyze_loop project rest w'
      | (w', Some ex) => (w', Some ex)
      end
  end.

(** [VaraMTFACheck.analyze] *)
Definition analyze (obj : option Project) : Fallible := fun w =>
  match obj with
  | None => (w, None)
  | Some project =>
      match mkdir_p (vara_result_folder project) w with
      | (w', None) => analyze_loop project (BIN_NAMES project) w'
      | (w', Some ex) => (w', Some ex)
      end
  end.

(** The cache file of one binary, as [actions_for_project] spells it. *)
Definition bc_cache_file (project : Project) (binary_name : string) : string :=
  ExtractStep.BC_CACHE_FOLDER_TEMPLATE (vara_result CFG) (name project) +:+
  ExtractStep.BC_FILE_TEMPLATE (name project) binary_name (version project).

Definition compile_error_handler (project : Project) : PEErrorHandler :=
  {| result_folder :=
       RESULT_FOLDER_TEMPLATE (vara_outfile CFG) (name project);
     error_file_name :=
       TPR.get_file_name (name project) "all" (version project)
         (run_uuid project) FSE.CompileError None;
     handler_run_cmd := None;
     handler_timeout_duration := None |}.

(** Where the compile-error handler writes its report. *)
Definition compile_error_path (project : Project) : string :=
  result_folder (compile_error_handler project) +:+ "/" +:+
  error_file_name (compile_error_handler project).

(** The assignments [actions_for_project] makes to the project. *)
Definition configure (project : Project) : Project :=
  {| name := name project;
     version := version project;
     run_uuid := run_uuid project;
     BIN_NAMES := BIN_NAMES project;
     builddir := builddir project;
     SRC_FILE := SRC_FILE project;
     src_dir := src_dir project;
     cflags := ["-fvara-handleRM=Commit"];
     runtime_extension := [RuntimeExtension; RunWithTime];
     compiler_extension := [RunCompiler; RunWLLVM; WithTimeout];
     compile := FunctionPEErrorWrapper (compile project)
                  (compile_error_handler project) |}.

(** The loop over [project.BIN_NAMES] with its [break]. *)
Fixpoint cache_loop (w : World) (project : Project) (bin_names : list string)
    (all_cache_files_present : bool) (analysis_actions : list Step)
    : list Step :=
  match bin_names with
  | [] => analysis_actions
  | binary_name :: rest =>
      let all_cache_files_present :=
        all_cache_files_present
        && path_exists w (bc_cache_file project binary_name) in
      if negb all_cache_files_present
      then analysis_actions ++ [Compile project; Extract project]
      else cache_loop w project rest all_cache_files_present analysis_actions
  end.

(** [VaRATaintPropagation.actions_for_project]: the updated project and the
    steps, which all hold it. *)
Definition actions_for_project (project : Project) (w : World)
    : Project * list Step :=
  let project := configure project in
  let analysis_actions := [] in
  let analysis_actions :=
    cache_loop w project (BIN_NAMES project) true analysis_actions in
  let analysis_actions := analysis_actions ++ [VaraMTFACheck (Some project)] in
  let analysis_actions := analysis_actions ++ [Clean project] in
  (project, analysis_actions).

End Experiment.

End TaintPropagation.

(** ** [varats/experiments/CommitAnnotationReport.py] *)

Module CommitAnnotation.

Section Experiment.

Variable CFG : Config.

(** [local.path(str(CFG["vara"]["result"].value)) / project.name + ".bc"] *)
Definition annotated_bc (project : Project) : string :=
  vara_result CFG +:+ "/" +:+ name project +:+ ".bc".

Definition configure (project : Project) : Project :=
  {| name := name project;
     version := version project;
     run_uuid := run_uuid project;
     BIN_NAMES := BIN_NAMES project;
     builddir := builddir project;
     SRC_FILE := SRC_FILE project;
     src_dir := src_dir project;
     cflags := ["-fvara-handleRM=Commit"];
     runtime_extension := [RuntimeExtension; RunWithTime];
     compiler_extension := [RunCompiler; RunWLLVM; WithTimeout];
     compile := compile project |}.

(** [CommitAnnotationReport.actions_for_project]. The three closures are
    only stored in their steps here; they run later, when the runner calls
    the steps. *)
Definition actions_for_project (project : Project) (w : World)
    : Project * list Step :=
  let project := configure project in
  let analysis_actions := [] in
  let analysis_actions :=
    if negb (path_exists w (annotated_bc project))
    then analysis_actions
         ++ [Prepare project] ++ [Compile project] ++ [CAR_Extract project]
    else analysis_actions in
  let analysis_actions := analysis_actions ++ [Analyse project] in
  let analysis_actions := analysis_actions ++ [Clean project] in
  (project, analysis_actions).

End Experiment.

End CommitAnnotation.

(** ** The pipeline runner *)

Inductive StepResult : Set := OK | ERROR.

Section Runner.

(** What calling a step does. *)
Variable exec : Step -> Fallible.

(** Modelled from the spec: the runner that calls the steps belongs to
    [benchbuild] and is not among the modelled files. By section 4.4 it
    executes the steps strictly in order, catches the failure of a step, records
    each step's outcome, and does not abort the remaining sequence. *)
Fixpoint run_steps (steps : list Step) (w : World)
    : World * list (Step * StepResult) :=
  match steps with
  | [] => (w, [])
  | s :: rest =>
      let '(w', r) := exec s w in
      let '(w'', outcomes) := run_steps rest w' in
      (w'', (s, match r with None => OK | Some _ => ERROR end) :: outcomes)
  end.

End Runner.

(** What the steps of the taint-propagation experiment do when called:
    [Compile] calls [project.compile], [VaraMTFACheck] calls [analyze]; the
    other steps belong to [benchbuild] and to the bitcode extraction and are
    given by [extern]. *)
Definition step_action (tool : list string -> string -> ProcResult)
    (CFG : Config) (extern : Step -> Fallible) (s : Step) : Fallible :=
  match s with
  | Compile project => compile project
  | VaraMTFACheck obj => TaintPropagation.analyze tool CFG obj
  | _ => extern s
  end.

(** ** Concrete settings, projects and tools used in the examples *)

Module Fixture.

Definition cfg : Config :=
  {| vara_result := "/cache"; vara_outfile := "/out"; vara_prepare := "" |}.

Definition empty_world : World := {| files := ∅; dirs := ∅; spawned := [] |}.

Definition compile_ok : Fallible := fun w => (w, None).

Definition cc_error : ProcessExecutionError :=
  {| pe_argv := ["clang"; "fib.c"; "-o"; "fib"]; pe_retcode := 1;
     pe_stdout := ""; pe_stderr := "fib.c:1: error" |}.

Definition compile_fail : Fallible := fun w =>
  (spawn ["clang"; "fib.c"; "-o"; "fib"] w, Some cc_error).

(** The project of [varats/projects/perfTests/fib.py], with one binary. *)
Definition fib (compile : Fallible) : Project :=
  {| name := "fib"; version := "1.0"; run_uuid := "u1";
     BIN_NAMES := ["fib"]; builddir := "/build"; SRC_FILE := "fib.c";
     src_dir := "src"; cflags := []; runtime_extension := [];
     compiler_extension := []; compile := compile |}.

(** A project with two binaries. *)
Definition two_bins : Project :=
  {| name := "tools"; version := "2.1"; run_uuid := "u7";
     BIN_NAMES := ["enc"; "dec"]; builddir := "/build"; SRC_FILE := "tools";
     src_dir := "src"; cflags := []; runtime_extension := [];
     compiler_extension := []; compile := compile_ok |}.

Definition proc (d : N) (rc : Z) (out : string) : ProcResult :=
  {| duration := d; retcode := rc; stdout := out; stderr := "" |}.

Definition is_exe (exe : string) (argv : list string) : bool :=
  match argv with
  | e :: _ => String.eqb e exe
  | [] => false
  end.

(** Both tools finish quickly with exit code 0. *)
Definition tool_ok (argv : list string) (stdin : string) : ProcResult :=
  if is_exe "opt" argv then proc 2 0 "mtfa" else proc 1 0 "checked".



(** [FileCheck] runs for 30000 seconds; both tools exit with 0. *)
Definition tool_slow_check (argv : list string) (stdin : string)
    : ProcResult :=
  if is_exe "opt" argv then proc 2 0 "mtfa" else proc 30000 0 "checked".

(** Both tools finish, and [FileCheck] reports a mismatch. *)
Definition tool_mismatch (argv : list string) (stdin : string) : ProcResult :=
  if is_exe "opt" argv then proc 2 0 "mtfa" else proc 1 1 "".

(** The steps that are not modelled do nothing and succeed. *)
Definition extern_ok (s : Step) : Fallible := fun w => (w, None).

(** The world in which the bitcode of [fib] is cached. *)
Definition cached_world : World :=
  write "/cache/fib/fib-fib-1.0.bc" (Raw "BC") empty_world.

End Fixture.

(** ** [varats/tools/driver_build_setup.py]: the terminal line *)

Module PyStr.

(** The line feed, [os.linesep] on the POSIX systems the driver runs on (it
    asks [/bin/stty] for the size of the terminal). *)
Definition linesep : string := String "010" EmptyString.

(** The carriage return. *)
Definition cr : string := String "013" EmptyString.

(** [str.isspace] on the ASCII range: tab to carriage return (9..13), the
    four separators (28..31) and the space. *)
Definition is_space (c : ascii) : bool :=
  let n := N_of_ascii c in
  ((9 <=? n)%N && (n <=? 13)%N) || ((28 <=? n)%N && (n <=? 32)%N).


(** [str.lstrip()] *)
Fixpoint lstrip (s : string) : string :=
  match s with
  | EmptyString => EmptyString
  | String c s' => if is_space c then lstrip s' else s
  end.

(** [str.rstrip()] *)
Fixpoint rstrip (s : string) : string :=
  match s with
  | EmptyString => EmptyString
  | String c s' =>
      let r := rstrip s' in
      if is_space c && String.eqb r "" then EmptyString else String c r
  end.

(** [str.strip()] *)
Definition strip (s : string) : string := rstrip (lstrip s).

(** [old] replaced by [new] from left to right, without overlaps; [skip]
    counts the characters of a match that are still to be passed over. *)
Fixpoint replace_from (old new s : string) (skip : nat) : string :=
  match s with
  | EmptyString => EmptyString
  | String c s' =>
      match skip with
      | S k => replace_from old new s' k
      | O =>
          if String.prefix old s
          then new +:+ replace_from old new s' (String.length old - 1)
          else String c (replace_from old new s' 0)
      end
  end.

(** With an empty [old], [new] goes before every character and at the end. *)
Fixpoint intersperse (new s : string) : string :=
  match s with
  | EmptyString => new
  | String c s' => new +:+ String c (intersperse new s')
  end.

(** [s.replace(old, new)] *)
Definition replace (old new s : string) : string :=
  if String.eqb old "" then intersperse new s else replace_from old new s 0.

(** [n * s] for an integer [n]: nothing when [n] is not positive. *)
Fixpoint repeat_nat (n : nat) (s : string) : string :=
  match n with
  | O => EmptyString
  | S k => s +:+ repeat_nat k s
  end.

Definition repeat (n : Z) (s : string) : string := repeat_nat (Z.to_nat n) s.

(** [len(s)] *)
Definition len (s : string) : Z := Z.of_nat (String.length s).

(** [s.split()]: the runs of characters between white space; [cur] holds the
    run being read, last character first. *)
Fixpoint split_from (cur : option (list ascii)) (s : string) : list string :=
  match s with
  | EmptyString =>
      match cur with
      | Some r => [string_of_list_ascii (rev r)]
      | None => []
      end
  | String c s' =>
      if is_space c
      then match cur with
           | Some r => string_of_list_ascii (rev r) :: split_from None s'
           | None => split_from None s'
           end
      else split_from (Some (c :: from_option id [] cur)) s'
  end.

Definition split (s : string) : list string := split_from None s.

(** The digits of [int(s)]: decimal digits, single underscores allowed
    between two digits. *)
Fixpoint int_digits (s : string) (acc : Z) (after_digit : bool) : option Z :=
  match s with
  | EmptyString => if after_digit then Some acc else None
  | String c s' =>
      match digit c with
      | Some d => int_digits s' (10 * acc + Z.of_N d)%Z true
      | None =>
          if Ascii.eqb c "_" && after_digit then int_digits s' acc false
          else None
      end
  end.

(** [int(s)] for a string without surrounding white space: an optional sign
    and the digits; [None] is [ValueError]. *)
Definition int (s : string) : option Z :=
  match s with
  | String c s' =>
      if Ascii.eqb c "+" then int_digits s' 0 false
      else if Ascii.eqb c "-" then option_map Z.opp (int_digits s' 0 false)
      else int_digits s 0 false
  | EmptyString => None
  end.

End PyStr.

Module Driver.

(** The exceptions the driver can end with. *)
Inductive Exn : Set :=
| ValueError
| SystemExit (code : Z)
| UnboundLocalError
| AttributeError.

Inductive Res (A : Type) : Type :=
| Ok (a : A)
| Raise (e : Exn).

Arguments Ok {A} a.
Arguments Raise {A} e.

(** [_, columns = os.popen('/bin/stty size', 'r').read().split()] followed by
    [int(columns)], on what the command printed. *)
Definition read_columns (stty_size : string) : Res Z :=
  match PyStr.split stty_size with
  | [_; columns] =>
      match PyStr.int columns with
      | Some n => Ok n
      | None => Raise ValueError
      end
  | _ => Raise ValueError
  end.

(** [update_term]: [stty_size] is what [/bin/stty size] prints when asked,
    [stdout] what has been written to the terminal so far. *)
Definition update_term (stty_size : string) (text : string)
    (enable_inline : bool) (stdout : string) : Res string :=
  let text := PyStr.strip (PyStr.replace PyStr.linesep "" text) in
  if String.eqb text "" then Ok stdout
  else if enable_inline then
    match read_columns stty_size with
    | Ok columns =>
        Ok (stdout +:+ text +:+
            (PyStr.repeat (columns - PyStr.len text - 1) " " +:+ PyStr.cr))
    | Raise e => Raise e
    end
  else Ok (stdout +:+ text +:+ PyStr.linesep).

(** *** Setting up a research tool *)

(** What the driver calls outside this file. *)
Inductive Call : Type :=
| save_config
| VaRA (source_location : string)
| setup (source_location install_prefix : string) (version : option string)
| upgrade
| build_tool (build_type : BuildType) (install_prefix : string)
| verify (install_prefix : string)
| print (line : string).

(** What the driver reads from outside: the working directory, the settings
    ([get_value_or_default(CFG["vara"], key, default)]), [pathlib]'s reading of
    a path and the ancestors [Path.mkdir(parents=True)] creates, the name of
    the tool, what a call does to the files, and the answer of
    [tool.verify_install]. *)
Record Env : Type := {
  getcwd : string;
  get_value_or_default : string -> string -> string;
  Path : string -> string;
  parents : string -> list string;
  tool_name : string;
  effect : Call -> World -> World;
  verify_install : World -> string -> bool
}.

(** The state of a run: the file system and the calls made so far. *)
Record St : Type := {
  world : World;
  calls : list Call
}.

(** A call is made: it is recorded, and has its effect on the files. *)
Definition call_out (env : Env) (c : Call) (st : St) : St :=
  {| world := effect env c (world st); calls := calls st ++ [c] |}.

(** [Path.mkdir(parents=True)] *)
Definition mkdir_parents (env : Env) (folder : string) (w : World) : World :=
  {| files := files w;
     dirs := {[folder]} ∪ list_to_set (parents env folder) ∪ dirs w;
     spawned := spawned w |}.

(** [__get_source_location] *)
Definition get_source_location (env : Env) (raw_source_location : option string)
    (w : World) : string * World :=
  let src_folder :=
    match raw_source_location with
    | None => Path env (get_value_or_default env "llvm_source_dir"
                          (getcwd env +:+ "/tools_src/"))
    | Some raw => Path env raw
    end in
  if negb (path_exists w src_folder)
  then (src_folder, mkdir_parents env src_folder w)
  else (src_folder, w).

(** [__get_install_prefix] *)
Definition get_install_prefix (env : Env) (raw_install_prefix : option string)
    (w : World) : string * World :=
  let install_prefix :=
    match raw_install_prefix with
    | None => Path env (get_value_or_default env "llvm_install_dir"
                          (getcwd env +:+ "/tools/" +:+ tool_name env +:+ "/"))
    | Some raw => Path env raw
    end in
  if negb (path_exists w install_prefix)
  then (install_prefix, mkdir_parents env install_prefix w)
  else (install_prefix, w).

(** The folders the two functions above settle on. *)
Definition source_folder (env : Env) (raw_source_location : option string)
    : string :=
  fst (get_source_location env raw_source_location
         {| files := ∅; dirs := ∅; spawned := [] |}).

Definition install_folder (env : Env) (raw_install_prefix : option string)
    : string :=
  fst (get_install_prefix env raw_install_prefix
         {| files := ∅; dirs := ∅; spawned := [] |}).

(** [__build_setup_init] *)
Definition build_setup_init (env : Env)
    (raw_source_location raw_install_prefix version : option string)
    (st : St) : St :=
  let '(src, w) := get_source_location env raw_source_location (world st) in
  let '(prefix, w) := get_install_prefix env raw_install_prefix w in
  call_out env (setup src prefix version) {| world := w; calls := calls st |}.

(** The parsed command line. *)
Record Args : Type := {
  config : bool;
  init : bool;
  update : bool;
  build : bool;
  buildtype : option string;
  researchtool : string;
  sourcelocation : option string;
  installprefix : option string;
  version : option string
}.

Section Main.

Variable env : Env.
Variable upper : string -> string.

(** The part of [main] under [if args.build]; [tool] tells whether the
    variable [tool] has been assigned. *)
Definition main_build (args : Args) (tool : bool) (st : St) : St * Res unit :=
  match buildtype args with
  | None => (st, Raise AttributeError)
  | Some s =>
      let build_type := parse_string_to_build_type upper s in
      if negb tool then (st, Raise UnboundLocalError)
      else
        let '(prefix, w) :=
          get_install_prefix env (installprefix args) (world st) in
        let st :=
          call_out env (build_tool build_type prefix)
            {| world := w; calls := calls st |} in
        let '(prefix, w) :=
          get_install_prefix env (installprefix args) (world st) in
        let ok := verify_install env w prefix in
        let st :=
          call_out env (verify prefix) {| world := w; calls := calls st |} in
        if ok
        then (call_out env (print (tool_name env +:+ " was correctly installed."))
                st, Ok tt)
        else (call_out env
                (print ("Could not install " +:+ tool_name env +:+ " correctly."))
                st, Ok tt)
  end.

(** [main], after [parser.parse_args()]. *)
Definition main (args : Args) (st : St) : St * Res unit :=
  if negb (config args || init args || update args || build args)
  then (st, Raise (SystemExit 2))
  else if config args then (call_out env save_config st, Ok tt)
  else
    let '(tool, st) :=
      if String.eqb (researchtool args) "VaRA"
         || String.eqb (researchtool args) "vara"
      then
        let '(src, w) :=
          get_source_location env (sourcelocation args) (world st) in
        (true, call_out env (VaRA src) {| world := w; calls := calls st |})
      else (false, st) in
    if init args && negb tool then (st, Raise UnboundLocalError)
    else
      let st :=
        if init args
        then build_setup_init env (sourcelocation args) (installprefix args)
               (version args) st
        else st in
      if update args && negb tool then (st, Raise UnboundLocalError)
      else
        let st := if update args then call_out env upgrade st else st in
        if build args then main_build args tool st else (st, Ok tt).

End Main.

End Driver.

(** ** The steps of the commit-annotation experiment *)

Module CommitAnnotationSteps.




Section Closures.

(** The programs the steps start ([extract_bc], [opt]): what a run in the
    given working directory ([None]: the current one) does. *)
Variable run : option string -> list string -> Fallible.
Variable CFG : Config.

(** [project_src], the source directory of the project as it was when the
    action list was assembled. *)
Variable project_src : string.



(** The [-yaml-out-file] argument of the analysis. *)
Definition outfile (project : Project) : string :=
  "-yaml-out-file=" +:+ vara_outfile CFG +:+ "/" +:+ name project +:+ "-"
  +:+ run_uuid project +:+ ".yaml".

Definition run_cmd_argv (project : Project) : list string :=
  ["opt"; "-vara-CFR"; outfile project;
   vara_result CFG +:+ "/" +:+ name project +:+ ".bc"].

(** [evaluate_analysis] *)
Definition evaluate_analysis (project : Project) : Fallible :=
  run None (run_cmd_argv project).

End Closures.

End CommitAnnotationSteps.

(** ** A terminal session of the driver, used in the examples *)

Module DriverFixture.

Definition env : Driver.Env :=
  {| Driver.getcwd := "/home/user";
     Driver.get_value_or_default := fun _ default => default;
     Driver.Path := fun s => s;
     Driver.parents := fun _ => [];
     Driver.tool_name := "VaRA";
     Driver.effect := fun _ w => w;
     Driver.verify_install := fun _ _ => true |}.

Definition args (config init update build : bool) : Driver.Args :=
  {| Driver.config := config; Driver.init := init; Driver.update := update;
     Driver.build := build; Driver.buildtype := Some "dev";
     Driver.researchtool := "vara"; Driver.sourcelocation := None;
     Driver.installprefix := None; Driver.version := None |}.

Definition state : Driver.St :=
  {| Driver.world := Fixture.empty_world; Driver.calls := [] |}.

(** [--init --build --buildtype], the last without a value. *)
Definition args_without_type : Driver.Args :=
  {| Driver.config := false; Driver.init := true; Driver.update := false;
     Driver.build := true; Driver.buildtype := None;
     Driver.researchtool := "VaRA"; Driver.sourcelocation := Some "/src";
     Driver.installprefix := Some "/opt/vara";
     Driver.version := Some "100" |}.

End DriverFixture.

(** ** A run of the extraction step, used in the examples *)

Module AnnotationFixture.

Definition project_src : string := "/build/src".

(** [extract_bc] writes the bitcode of the project next to its sources;
    every other program does nothing. *)
Definition run (cwd : option string) (argv : list string) : Fallible :=
  fun w =>
    if Fixture.is_exe "extract_bc" argv
    then (write "/build/src/out/fib.bc" (Raw "BC") (spawn argv w), None)
    else (spawn argv w, None).

Definition other_run : Project :=
  {| name := "fib"; version := "1.0"; run_uuid := "u2";
     BIN_NAMES := ["fib"]; builddir := "/build"; SRC_FILE := "fib.c";
     src_dir := "src"; cflags := []; runtime_extension := [];
     compiler_extension := []; compile := Fixture.compile_ok |}.

End AnnotationFixture.

(** ** The processes of the analysis step *)


(** * Properties *)

(** ** Strings *)

Lemma upper_ascii_idem (c : ascii) :
  Str.upper_ascii (Str.upper_ascii c) = Str.upper_ascii c.
Proof. destruct c as [[] [] [] [] [] [] [] []]; reflexivity. Qed.

Lemma upper_idem (s : string) : Str.upper (Str.upper s) = Str.upper s.
Proof.
  induction s as [|c s IH]; simpl; [reflexivity|].
  by rewrite upper_ascii_idem, IH.
Qed.

Lemma chars_app (s1 s2 : string) :
  Str.chars (s1 +:+ s2) = Str.chars s1 ++ Str.chars s2.
Proof.
  unfold Str.chars. induction s1 as [|c s1 IH]; simpl; [reflexivity|].
  by rewrite <- IH.
Qed.

Lemma chars_inj (s1 s2 : string) : Str.chars s1 = Str.chars s2 -> s1 = s2.
Proof.
  unfold Str.chars. intros H.
  rewrite <- (string_of_list_ascii_of_string s1),
          <- (string_of_list_ascii_of_string s2).
  by rewrite H.
Qed.

Lemma app_inv_tail_str (s1 s2 t : string) : s1 +:+ t = s2 +:+ t -> s1 = s2.
Proof.
  intros H. apply chars_inj. apply (f_equal Str.chars) in H.
  rewrite !chars_app in H. by apply app_inv_tail in H.
Qed.

(** ** [parse_string_to_build_type] *)

Example parse_doctests :
  parse_string_to_build_type Str.upper "DBG" = DBG /\
  parse_string_to_build_type Str.upper "PGO" = PGO /\
  parse_string_to_build_type Str.upper "DEV" = DEV /\
  parse_string_to_build_type Str.upper "random string" = DEV /\
  parse_string_to_build_type Str.upper "oPt" = OPT /\
  parse_string_to_build_type Str.upper "OPT" = OPT /\
  parse_string_to_build_type Str.upper "DEV-SAN" = DEV_SAN /\
  BuildType_value DBG = 1%Z /\ BuildType_value DEV_SAN = 5%Z.
Proof. repeat split; reflexivity. Qed.

Section ParseBuildType.

Variable upper : string -> string.
Hypothesis upper_idempotent : forall s, upper (upper s) = upper s.

Lemma parse_cases (s : string) :
  let b := parse_string_to_build_type upper s in
  (upper s = "DBG" /\ b = DBG) \/ (upper s = "DEV" /\ b = DEV) \/
  (upper s = "OPT" /\ b = OPT) \/ (upper s = "PGO" /\ b = PGO) \/
  (upper s = "DEV-SAN" /\ b = DEV_SAN) \/
  (upper s <> "DBG" /\ upper s <> "DEV" /\ upper s <> "OPT" /\
   upper s <> "PGO" /\ upper s <> "DEV-SAN" /\ b = DEV).
Proof.
  unfold parse_string_to_build_type. cbv zeta.
  destruct (String.eqb_spec (upper s) "DBG"); [by left|].
  destruct (String.eqb_spec (upper s) "DEV"); [by right; left|].
  destruct (String.eqb_spec (upper s) "OPT"); [by right; right; left|].
  destruct (String.eqb_spec (upper s) "PGO"); [by right; right; right; left|].
  destruct (String.eqb_spec (upper s) "DEV-SAN");
    [by right; right; right; right; left|].
  by repeat right.
Qed.

(** C8: the build type depends on the upper-cased string only; each of the
    five names yields its build type, the four names other than DEV are the
    only way to get theirs, and every other string yields DEV. *)
Theorem parse_string_to_build_type_spec (s : string) :
  parse_string_to_build_type upper s
  = parse_string_to_build_type upper (upper s)
  /\ (parse_string_to_build_type upper s = DBG <-> upper s = "DBG")
  /\ (parse_string_to_build_type upper s = OPT <-> upper s = "OPT")
  /\ (parse_string_to_build_type upper s = PGO <-> upper s = "PGO")
  /\ (parse_string_to_build_type upper s = DEV_SAN <-> upper s = "DEV-SAN")
  /\ (upper s = "DEV" -> parse_string_to_build_type upper s = DEV)
  /\ (upper s <> "DBG" -> upper s <> "DEV" -> upper s <> "OPT" ->
      upper s <> "PGO" -> upper s <> "DEV-SAN" ->
      parse_string_to_build_type upper s = DEV).
Proof.
  split.
  { unfold parse_string_to_build_type. cbv zeta.
    by rewrite upper_idempotent. }
  pose proof (parse_cases s) as H. cbv zeta in H.
  destruct H as [[E ->]|[[E ->]|[[E ->]|[[E ->]|[[E ->]|(?&?&?&?&?& ->)]]]]];
    repeat split; intros; try congruence; try (rewrite E in *; congruence).
Qed.

End ParseBuildType.

Lemma parse_string_to_build_type_spec_witness :
  parse_string_to_build_type Str.upper "oPt"
  = parse_string_to_build_type Str.upper (Str.upper "oPt")
  /\ (parse_string_to_build_type Str.upper "oPt" = DBG
      <-> Str.upper "oPt" = "DBG")
  /\ (parse_string_to_build_type Str.upper "oPt" = OPT
      <-> Str.upper "oPt" = "OPT")
  /\ (parse_string_to_build_type Str.upper "oPt" = PGO
      <-> Str.upper "oPt" = "PGO")
  /\ (parse_string_to_build_type Str.upper "oPt" = DEV_SAN
      <-> Str.upper "oPt" = "DEV-SAN")
  /\ (Str.upper "oPt" = "DEV"
      -> parse_string_to_build_type Str.upper "oPt" = DEV)
  /\ (Str.upper "oPt" <> "DBG" -> Str.upper "oPt" <> "DEV" ->
      Str.upper "oPt" <> "OPT" ->
      Str.upper "oPt" <> "PGO" -> Str.upper "oPt" <> "DEV-SAN" ->
      parse_string_to_build_type Str.upper "oPt" = DEV).
Proof.
  exact (parse_string_to_build_type_spec Str.upper upper_idem "oPt").
Defined.

(** ** Assembling the action lists *)

Section ActionLists.

Variable CFG : Config.

Lemma cache_loop_all_present (w : World) (project : Project)
    (bin_names : list string) (acc : list Step) :
  Forall (fun b => path_exists w (TaintPropagation.bc_cache_file CFG project b)
                   = true) bin_names ->
  TaintPropagation.cache_loop CFG w project bin_names true acc = acc.
Proof.
  induction 1 as [|b rest Hb _ IH]; simpl; [reflexivity|].
  rewrite Hb. simpl. exact IH.
Qed.

Lemma cache_loop_some_missing (w : World) (project : Project)
    (bin_names : list string) (acc : list Step) :
  Exists (fun b => path_exists w (TaintPropagation.bc_cache_file CFG project b)
                   = false) bin_names ->
  TaintPropagation.cache_loop CFG w project bin_names true acc
  = acc ++ [Compile project; Extract project].
Proof.
  induction bin_names as [|b rest IH]; intros H.
  - inversion H.
  - simpl.
    destruct (path_exists w (TaintPropagation.bc_cache_file CFG project b))
      eqn:Hb; simpl; [|reflexivity].
    apply IH. inversion H as [? ? Hhd|? ? Htl]; subst; [congruence|exact Htl].
Qed.

(** The cache path only reads the name and the version, which
    [actions_for_project] leaves alone. *)
Lemma bc_cache_file_configure (project : Project) (b : string) :
  TaintPropagation.bc_cache_file CFG (TaintPropagation.configure CFG project) b
  = TaintPropagation.bc_cache_file CFG project b.
Proof. reflexivity. Qed.

(** The commit-annotation experiment keeps one annotated bitcode file per
    project and decides on that file alone. *)
Lemma car_actions_for_project_cache_skip (project : Project) (w : World) :
  let project' := fst (CommitAnnotation.actions_for_project CFG project w) in
  let actions := snd (CommitAnnotation.actions_for_project CFG project w) in
  (path_exists w (CommitAnnotation.annotated_bc CFG project) = true ->
   actions = [Analyse project'; Clean project'])
  /\
  (path_exists w (CommitAnnotation.annotated_bc CFG project) = false ->
   actions = [Prepare project'; Compile project'; CAR_Extract project';
              Analyse project'; Clean project']
   /\ count_kind KCompile actions = 1
   /\ count_kind KExtract actions = 1
   /\ index_kind KCompile actions = Some 1
   /\ index_kind KExtract actions = Some 2
   /\ index_kind KAnalysis actions = Some 3).
Proof.
  cbv zeta. unfold CommitAnnotation.actions_for_project. cbv zeta. simpl fst.
  simpl snd.
  change (CommitAnnotation.annotated_bc CFG
            (CommitAnnotation.configure project))
    with (CommitAnnotation.annotated_bc CFG project).
  split; intros ->; repeat split.
Qed.

(** C1: with the cache file of every binary present the list has neither a
    compile nor an extract step; with one missing it has exactly one of each,
    both before the analysis step. The commit-annotation experiment does the
    same on the one annotated bitcode file it keeps per project. *)
Theorem actions_for_project_cache_skip (project : Project) (w : World) :
  let project' := fst (TaintPropagation.actions_for_project CFG project w) in
  let actions := snd (TaintPropagation.actions_for_project CFG project w) in
  let car_project' :=
    fst (CommitAnnotation.actions_for_project CFG project w) in
  let car_actions :=
    snd (CommitAnnotation.actions_for_project CFG project w) in
  (Forall (fun b => path_exists w (TaintPropagation.bc_cache_file CFG project b)
                    = true) (BIN_NAMES project) ->
   actions = [VaraMTFACheck (Some project'); Clean project']
   /\ count_kind KCompile actions = 0
   /\ count_kind KExtract actions = 0)
  /\
  (Exists (fun b => path_exists w (TaintPropagation.bc_cache_file CFG project b)
                    = false) (BIN_NAMES project) ->
   actions = [Compile project'; Extract project';
              VaraMTFACheck (Some project'); Clean project']
   /\ count_kind KCompile actions = 1
   /\ count_kind KExtract actions = 1
   /\ index_kind KCompile actions = Some 0
   /\ index_kind KExtract actions = Some 1
   /\ index_kind KAnalysis actions = Some 2)
  /\
  (path_exists w (CommitAnnotation.annotated_bc CFG project) = true ->
   car_actions = [Analyse car_project'; Clean car_project']
   /\ count_kind KCompile car_actions = 0
   /\ count_kind KExtract car_actions = 0)
  /\
  (path_exists w (CommitAnnotation.annotated_bc CFG project) = false ->
   car_actions = [Prepare car_project'; Compile car_project';
                  CAR_Extract car_project'; Analyse car_project';
                  Clean car_project']
   /\ count_kind KCompile car_actions = 1
   /\ count_kind KExtract car_actions = 1
   /\ index_kind KCompile car_actions = Some 1
   /\ index_kind KExtract car_actions = Some 2
   /\ index_kind KAnalysis car_actions = Some 3).
Proof.
  cbv zeta. split; [|split].
  - intros H. unfold TaintPropagation.actions_for_project. cbv zeta.
    simpl fst. simpl snd.
    rewrite cache_loop_all_present; [repeat split|exact H].
  - intros H. unfold TaintPropagation.actions_for_project. cbv zeta.
    simpl fst. simpl snd.
    rewrite cache_loop_some_missing; [repeat split|exact H].
  - pose proof (car_actions_for_project_cache_skip project w) as [H1 H2].
    cbv zeta in H1, H2. split; [|exact H2].
    intros H. rewrite (H1 H). repeat split.
Qed.

End ActionLists.

Section RunSteps.

Variable exec : Step -> Fallible.

Lemma run_steps_steps (steps : list Step) (w : World) :
  (snd (run_steps exec steps w)).*1 = steps.
Proof.
  revert w. induction steps as [|s rest IH]; intros w; simpl; [reflexivity|].
  destruct (exec s w) as [w' r].
  specialize (IH w'). destruct (run_steps exec rest w') as [w'' outcomes].
  simpl in *. f_equal. exact IH.
Qed.

Lemma run_steps_last (steps : list Step) (s : Step) (w : World) :
  last steps = Some s ->
  exists r, last (snd (run_steps exec steps w)) = Some (s, r).
Proof.
  intros Hlast. pose proof (run_steps_steps steps w) as Hfst.
  apply (f_equal last) in Hfst. rewrite fmap_last, Hlast in Hfst.
  destruct (last (snd (run_steps exec steps w))) as [[s' r]|];
    simpl in Hfst; [|discriminate].
  exists r. congruence.
Qed.

Lemma run_steps_length (steps : list Step) (w : World) :
  length (snd (run_steps exec steps w)) = length steps.
Proof.
  rewrite <- (run_steps_steps steps w) at 2. by rewrite length_fmap.
Qed.

End RunSteps.

Lemma tp_actions_last (CFG : Config) (project : Project) (w : World) :
  last (snd (TaintPropagation.actions_for_project CFG project w))
  = Some (Clean (fst (TaintPropagation.actions_for_project CFG project w))).
Proof.
  unfold TaintPropagation.actions_for_project. cbv zeta. simpl fst. simpl snd.
  apply last_snoc.
Qed.

Lemma car_actions_last (CFG : Config) (project : Project) (w : World) :
  last (snd (CommitAnnotation.actions_for_project CFG project w))
  = Some (Clean (fst (CommitAnnotation.actions_for_project CFG project w))).
Proof.
  unfold CommitAnnotation.actions_for_project. cbv zeta. simpl fst. simpl snd.
  apply last_snoc.
Qed.

(** C6: both experiments end their action list with the cleanup step, and the
    runner calls every step of the list, whatever the earlier steps return:
    the last recorded outcome is the cleanup step's. *)
Theorem cleanup_step_is_last (CFG : Config) (project : Project) (w : World)
    (exec : Step -> Fallible) (w_run : World) :
  let tp := TaintPropagation.actions_for_project CFG project w in
  let car := CommitAnnotation.actions_for_project CFG project w in
  last (snd tp) = Some (Clean (fst tp))
  /\ last (snd car) = Some (Clean (fst car))
  /\ (exists r, last (snd (run_steps exec (snd tp) w_run))
                = Some (Clean (fst tp), r))
  /\ (exists r, last (snd (run_steps exec (snd car) w_run))
                = Some (Clean (fst car), r))
  /\ length (snd (run_steps exec (snd tp) w_run)) = length (snd tp)
  /\ length (snd (run_steps exec (snd car) w_run)) = length (snd car).
Proof.
  cbv zeta. repeat split.
  - apply tp_actions_last.
  - apply car_actions_last.
  - apply run_steps_last, tp_actions_last.
  - apply run_steps_last, car_actions_last.
  - apply run_steps_length.
  - apply run_steps_length.
Qed.

(** C9: without a project object [analyze] returns at once: no error, and the
    world (files, directories, spawned processes) is the one it was given. *)
Theorem analyze_without_project (tool : list string -> string -> ProcResult)
    (CFG : Config) (w : World) :
  TaintPropagation.analyze tool CFG None w = (w, None).
Proof. reflexivity. Qed.

(** ** Report names *)

Lemma last_char_app (s t : string) (c : ascii) :
  last (Str.chars t) = Some c -> last (Str.chars (s +:+ t)) = Some c.
Proof. intros H. by rewrite chars_app, last_app, H. Qed.

Section ReportNames.

Variable CFG : Config.
Variable project : Project.

Lemma result_path_last (b : string) :
  last (Str.chars (TaintPropagation.result_path CFG project b)) = Some "s"%char.
Proof. repeat first [reflexivity | apply last_char_app]. Qed.

Lemma error_path_last (b : string) :
  last (Str.chars (TaintPropagation.error_path CFG project b)) = Some "t"%char.
Proof. repeat first [reflexivity | apply last_char_app]. Qed.

Lemma compile_error_path_last :
  last (Str.chars (TaintPropagation.compile_error_path CFG project))
  = Some "r"%char.
Proof. repeat first [reflexivity | apply last_char_app]. Qed.

Lemma result_error_ne (b b' : string) :
  TaintPropagation.result_path CFG project b
  <> TaintPropagation.error_path CFG project b'.
Proof.
  intros H. pose proof (result_path_last b) as H1.
  rewrite H, error_path_last in H1. discriminate.
Qed.

Lemma result_path_inj (b b' : string) :
  TaintPropagation.result_path CFG project b
  = TaintPropagation.result_path CFG project b' -> b = b'.
Proof.
  unfold TaintPropagation.result_path, TaintPropagation.result_file,
    TPR.get_file_name.
  intros H. do 2 apply String.app_inj in H. by apply app_inv_tail_str in H.
Qed.

Lemma error_path_inj (b b' : string) :
  TaintPropagation.error_path CFG project b
  = TaintPropagation.error_path CFG project b' -> b = b'.
Proof.
  unfold TaintPropagation.error_path, TaintPropagation.error_file,
    TPR.get_file_name.
  intros H. do 2 apply String.app_inj in H. by apply app_inv_tail_str in H.
Qed.

Lemma compile_error_ne_result (b : string) :
  TaintPropagation.compile_error_path CFG project
  <> TaintPropagation.result_path CFG project b.
Proof.
  intros H. pose proof compile_error_path_last as H1.
  rewrite H, result_path_last in H1. discriminate.
Qed.

Lemma compile_error_ne_error (b : string) :
  TaintPropagation.compile_error_path CFG project
  <> TaintPropagation.error_path CFG project b.
Proof.
  intros H. pose proof compile_error_path_last as H1.
  rewrite H, error_path_last in H1. discriminate.
Qed.

End ReportNames.

(** ** Running the chain of one binary *)

Section Chain.

Variable tool : list string -> string -> ProcResult.
Variable CFG : Config.
Variable project : Project.

Abbreviation rp := (TaintPropagation.result_path CFG project).
Abbreviation ep := (TaintPropagation.error_path CFG project).
Abbreviation stage_a := (TaintPropagation.analysis_stage CFG project).
Abbreviation stage_b := (TaintPropagation.verify_stage project).
Abbreviation chain := (TaintPropagation.cmd_chain CFG project).
Abbreviation result := (TaintPropagation.chain_result tool CFG project).
Abbreviation output := (TaintPropagation.chain_output tool CFG project).

Abbreviation after_chain := (TaintPropagation.after_chain tool CFG project).
Abbreviation after_binary := (TaintPropagation.after_binary tool CFG project).

Lemma run_cmd_chain (b : string) (w : World) :
  run_cmd tool (chain b) "" w = (after_chain b w, result b).
Proof. reflexivity. Qed.


Lemma call_chain (b : string) (w : World) :
  call tool (chain b) w
  = (after_chain b w,
     if (retcode (result b) =? 0)%Z then None
     else Some (cmd_error tool (chain b))).
Proof.
  unfold call. rewrite run_cmd_chain.
  destruct (retcode (result b) =? 0)%Z; reflexivity.
Qed.

Lemma analyze_binary_eq (b : string) (w : World) :
  TaintPropagation.analyze_binary tool CFG project b w
  = (after_binary b w, None).
Proof.
  unfold TaintPropagation.analyze_binary, exec_func_with_pe_error_handler,
    TaintPropagation.after_binary.
  rewrite call_chain.
  destruct (retcode (result b) =? 0)%Z; [reflexivity|].
  unfold rm.
  assert (is_file
            (spawn ["rm"; rp b]
               (handle (TaintPropagation.error_handler CFG project b)
                  (cmd_error tool (chain b)) (after_chain b w))) (rp b)
          = true) as ->; [|reflexivity].
  unfold is_file. apply bool_decide_eq_true. simpl.
  rewrite lookup_insert_ne by (apply not_eq_sym, result_error_ne).
  rewrite lookup_insert_eq. eauto.
Qed.

Lemma after_binary_files (b : string) (w : World) (q : string) :
  files (after_binary b w) !! q
  = if (retcode (result b) =? 0)%Z
    then (if decide (q = rp b) then Some (Raw (output b)) else files w !! q)
    else (if decide (q = rp b) then None
          else if decide (q = ep b)
               then Some (FailureReport (cmd_error tool (chain b))
                            (Some TaintPropagation.timeout_duration))
               else files w !! q).
Proof.
  unfold TaintPropagation.after_binary.
  destruct (retcode (result b) =? 0)%Z; simpl.
  - destruct (decide (q = rp b)) as [->|Hq].
    + by rewrite lookup_insert_eq.
    + by rewrite !lookup_insert_ne.
  - destruct (decide (q = rp b)) as [->|Hq].
    + by rewrite lookup_delete_eq.
    + rewrite lookup_delete_ne by done.
      change (result_folder (TaintPropagation.error_handler CFG project b)
              +:+ "/" +:+
              error_file_name (TaintPropagation.error_handler CFG project b))
        with (ep b).
      destruct (decide (q = ep b)) as [->|Hq'].
      * by rewrite lookup_insert_eq.
      * by rewrite !lookup_insert_ne.
Qed.



Lemma after_binary_result_same (b : string) (w : World) :
  files (after_binary b w) !! rp b
  = if (retcode (result b) =? 0)%Z then Some (Raw (output b)) else None.
Proof.
  rewrite after_binary_files.
  destruct (retcode (result b) =? 0)%Z; by case_decide.
Qed.

Lemma after_binary_error_same (b : string) (w : World) :
  files (after_binary b w) !! ep b
  = if (retcode (result b) =? 0)%Z then files w !! ep b
    else Some (FailureReport (cmd_error tool (chain b))
                 (Some TaintPropagation.timeout_duration)).
Proof.
  rewrite after_binary_files.
  destruct (retcode (result b) =? 0)%Z; repeat case_decide; try done;
    exfalso; by eapply result_error_ne.
Qed.

Lemma after_binary_other (b : string) (w : World) (q : string) :
  q <> rp b -> q <> ep b -> files (after_binary b w) !! q = files w !! q.
Proof.
  intros H1 H2. rewrite after_binary_files.
  destruct (retcode (result b) =? 0)%Z; repeat case_decide; done.
Qed.

(** *** The loop over the binaries *)


Lemma analyze_loop_cons (b : string) (bins : list string) (w : World) :
  TaintPropagation.analyze_loop tool CFG project (b :: bins) w
  = TaintPropagation.analyze_loop tool CFG project bins (after_binary b w).
Proof. simpl. by rewrite analyze_binary_eq. Qed.




(** A path that is no success or failure file of a listed binary is left
    alone. *)
Lemma analyze_loop_other (bins : list string) (w : World) (q : string) :
  (forall b, b ∈ bins -> q <> rp b /\ q <> ep b) ->
  files (fst (TaintPropagation.analyze_loop tool CFG project bins w)) !! q
  = files w !! q.
Proof.
  revert w. induction bins as [|b bins IH]; intros w Hq; [reflexivity|].
  rewrite analyze_loop_cons, IH
    by (intros; apply Hq; by apply list_elem_of_further).
  destruct (Hq b) as [H1 H2]; [apply list_elem_of_here|].
  by apply after_binary_other.
Qed.

(** The success file of a listed binary after the loop. *)
Lemma analyze_loop_result_path (bins : list string) (w : World) (b : string) :
  b ∈ bins ->
  files (fst (TaintPropagation.analyze_loop tool CFG project bins w)) !! rp b
  = if (retcode (result b) =? 0)%Z then Some (Raw (output b)) else None.
Proof.
  revert w. induction bins as [|b0 bins IH]; intros w Hb.
  - by apply elem_of_nil in Hb.
  - rewrite analyze_loop_cons.
    destruct (decide (b ∈ bins)) as [Hin|Hnin]; [by apply IH|].
    apply elem_of_cons in Hb as [->|Hb]; [|done].
    rewrite analyze_loop_other; [apply after_binary_result_same|].
    intros b' Hb'. split.
    + intros ->%result_path_inj. done.
    + apply result_error_ne.
Qed.

(** The failure file of a listed binary after the loop: written when the
    chain of the binary fails, and otherwise as it was before. *)
Lemma analyze_loop_error_path (bins : list string) (w : World) (b : string) :
  b ∈ bins ->
  files (fst (TaintPropagation.analyze_loop tool CFG project bins w)) !! ep b
  = if (retcode (result b) =? 0)%Z then files w !! ep b
    else Some (FailureReport (cmd_error tool (chain b))
                 (Some TaintPropagation.timeout_duration)).
Proof.
  revert w. induction bins as [|b0 bins IH]; intros w Hb.
  - by apply elem_of_nil in Hb.
  - rewrite analyze_loop_cons.
    destruct (decide (b ∈ bins)) as [Hin|Hnin].
    + rewrite IH by done.
      destruct (decide (b0 = b)) as [->|Hne].
      * rewrite after_binary_error_same.
        by destruct (retcode (result b) =? 0)%Z.
      * rewrite after_binary_other; [done|..].
        -- apply not_eq_sym, result_error_ne.
        -- intros ?%error_path_inj. done.
    + apply elem_of_cons in Hb as [->|Hb]; [|done].
      rewrite analyze_loop_other; [apply after_binary_error_same|].
      intros b' Hb'. split.
      * apply not_eq_sym, result_error_ne.
      * intros ->%error_path_inj. done.
Qed.

End Chain.

(** ** [VaraMTFACheck.analyze] *)

Section Analyze.

Variable tool : list string -> string -> ProcResult.
Variable CFG : Config.
Variable project : Project.

Lemma analyze_some (w : World) :
  TaintPropagation.analyze tool CFG (Some project) w
  = TaintPropagation.analyze_loop tool CFG project (BIN_NAMES project)
      (fst (mkdir_p (TaintPropagation.vara_result_folder CFG project) w)).
Proof. reflexivity. Qed.


Lemma analyze_result_path (w : World) (b : string) :
  b ∈ BIN_NAMES project ->
  files (fst (TaintPropagation.analyze tool CFG (Some project) w))
    !! TaintPropagation.result_path CFG project b
  = if (retcode (TaintPropagation.chain_result tool CFG project b) =? 0)%Z
    then Some (Raw (TaintPropagation.chain_output tool CFG project b))
    else None.
Proof. intros Hb. rewrite analyze_some. by apply analyze_loop_result_path. Qed.

Lemma analyze_error_path (w : World) (b : string) :
  b ∈ BIN_NAMES project ->
  files (fst (TaintPropagation.analyze tool CFG (Some project) w))
    !! TaintPropagation.error_path CFG project b
  = if (retcode (TaintPropagation.chain_result tool CFG project b) =? 0)%Z
    then files w !! TaintPropagation.error_path CFG project b
    else Some (FailureReport
                 (cmd_error tool (TaintPropagation.cmd_chain CFG project b))
                 (Some TaintPropagation.timeout_duration)).
Proof. intros Hb. rewrite analyze_some. by rewrite analyze_loop_error_path. Qed.

(** What the analysis stage does: [opt] under a limit of 28800 seconds. *)
Lemma analysis_stage_run (b : string) (stdin : string) :
  run_argv tool (TaintPropagation.analysis_stage CFG project b) stdin
  = let r := tool (formulate (TaintPropagation.vara_run_cmd CFG project b))
                  stdin in
    if (28800 <? duration r)%N
    then {| duration := 28800; retcode := 124; stdout := ""; stderr := "" |}
    else r.
Proof. reflexivity. Qed.

Lemma verify_stage_run (b : string) (stdin : string) :
  run_argv tool (TaintPropagation.verify_stage project b) stdin
  = tool (TaintPropagation.verify_stage project b) stdin.
Proof. reflexivity. Qed.



End Analyze.








(** C4, as the code has it: the chain has two stages; the declared timeout
    wraps the first, the analysis, which therefore never runs longer than
    28800 seconds; the second, the verifier, runs without a limit. *)
Theorem timeout_bounds_analysis_stage
    (tool : list string -> string -> ProcResult) (CFG : Config)
    (project : Project) (b : string) (stdin : string) :
  stages (TaintPropagation.cmd_chain CFG project b)
  = [TaintPropagation.analysis_stage CFG project b;
     TaintPropagation.verify_stage project b]
  /\ time_limit (TaintPropagation.analysis_stage CFG project b)
     = parse_duration TaintPropagation.timeout_duration
  /\ parse_duration TaintPropagation.timeout_duration = Some 28800%N
  /\ time_limit (TaintPropagation.verify_stage project b) = None
  /\ (duration (run_argv tool (TaintPropagation.analysis_stage CFG project b)
                  stdin) <= 28800)%N
  /\ run_argv tool (TaintPropagation.verify_stage project b) stdin
     = tool (TaintPropagation.verify_stage project b) stdin.
Proof.
  repeat split.
  rewrite analysis_stage_run. cbv zeta.
  destruct (28800 <? duration _)%N eqn:Hlt; simpl; [lia|].
  by apply N.ltb_ge in Hlt.
Qed.

(** The verifier runs for 30000 seconds, longer than the eight hours declared,
    and the run ends as a success. *)
Lemma timeout_scope_counterexample :
  let p := Fixture.fib Fixture.compile_ok in
  let w' := fst (TaintPropagation.analyze Fixture.tool_slow_check Fixture.cfg
                   (Some p) Fixture.empty_world) in
  parse_duration TaintPropagation.timeout_duration = Some 28800%N
  /\ time_limit (TaintPropagation.verify_stage p "fib") = None
  /\ duration (run_argv Fixture.tool_slow_check
                 (TaintPropagation.verify_stage p "fib") "mtfa") = 30000%N
  /\ duration (TaintPropagation.chain_result Fixture.tool_slow_check
                 Fixture.cfg p "fib") = 30000%N
  /\ retcode (TaintPropagation.chain_result Fixture.tool_slow_check
                Fixture.cfg p "fib") = 0%Z
  /\ TaintPropagation.outcome_kinds Fixture.cfg w' p "fib" = [FSE.Success].
Proof. vm_compute. repeat split. Qed.




(** ** The compile step under its error handler *)

Section CompileErrors.

Variable CFG : Config.
Variable project : Project.

(** The project that [actions_for_project] hands to its steps has the
    wrapped [compile]. *)
Lemma configured_compile (w0 w : World) :
  compile (fst (TaintPropagation.actions_for_project CFG project w0)) w
  = match compile project w with
    | (w1, None) => (w1, None)
    | (w1, Some ex) =>
        (write (TaintPropagation.compile_error_path CFG project)
               (FailureReport ex None) w1, Some ex)
    end.
Proof. reflexivity. Qed.

Lemma compile_error_name_inj (b b' : string) :
  TaintPropagation.vara_result_folder CFG project +:+ "/" +:+
    TPR.get_file_name (name project) b (version project) (run_uuid project)
      FSE.CompileError None
  = TaintPropagation.vara_result_folder CFG project +:+ "/" +:+
    TPR.get_file_name (name project) b' (version project) (run_uuid project)
      FSE.CompileError None ->
  b = b'.
Proof.
  unfold TPR.get_file_name. intros H.
  do 2 apply String.app_inj in H. by apply app_inv_tail_str in H.
Qed.

End CompileErrors.

(** C7: a [ProcessExecutionError] raised by the project's [compile] ends as a
    report of kind CompileError in the result folder of the project; no report
    of kind Failed and no success file is written for it. *)
Theorem compile_failure_reported (CFG : Config) (project : Project)
    (w0 w w1 : World) (ex : ProcessExecutionError) :
  compile project w = (w1, Some ex) ->
  let project' := fst (TaintPropagation.actions_for_project CFG project w0) in
  let w' := fst (compile project' w) in
  result_folder (TaintPropagation.compile_error_handler CFG project)
  = vara_outfile CFG +:+ "/" +:+ name project
  /\ error_file_name (TaintPropagation.compile_error_handler CFG project)
     = TPR.get_file_name (name project) "all" (version project)
         (run_uuid project) FSE.CompileError None
  /\ files w' !! TaintPropagation.compile_error_path CFG project
     = Some (FailureReport ex None)
  /\ (forall b,
        files w' !! TaintPropagation.error_path CFG project b
        = files w1 !! TaintPropagation.error_path CFG project b
        /\ files w' !! TaintPropagation.result_path CFG project b
           = files w1 !! TaintPropagation.result_path CFG project b)
  /\ snd (compile project' w) = Some ex.
Proof.
  intros Hc. cbv zeta. rewrite configured_compile, Hc. simpl.
  split; [reflexivity|]. split; [reflexivity|].
  split; [apply lookup_insert_eq|]. split; [|reflexivity].
  intros b. split; apply lookup_insert_ne.
  - apply compile_error_ne_error.
  - apply compile_error_ne_result.
Qed.

Lemma compile_failure_reported_witness :
  let p := Fixture.fib Fixture.compile_fail in
  let p' := fst (TaintPropagation.actions_for_project Fixture.cfg p
                   Fixture.empty_world) in
  files (fst (compile p' Fixture.empty_world))
    !! "/out/fib/all-1.0-u1.CompileError"
  = Some (FailureReport Fixture.cc_error None)
  /\ snd (compile p' Fixture.empty_world) = Some Fixture.cc_error.
Proof.
  cbv zeta.
  pose proof (compile_failure_reported Fixture.cfg
                (Fixture.fib Fixture.compile_fail) Fixture.empty_world
                Fixture.empty_world
                (spawn ["clang"; "fib.c"; "-o"; "fib"] Fixture.empty_world)
                Fixture.cc_error eq_refl) as H.
  cbv zeta in H.
  exact (conj (proj1 (proj2 (proj2 H))) (proj2 (proj2 (proj2 (proj2 H))))).
Defined.

(** C10: the report of a failed compilation is named after the literal
    binary name [all], whatever binaries the project has; the handler writes
    this one file and no file named after another binary. *)
Theorem compile_error_single_artifact (CFG : Config) (project : Project)
    (w0 w w1 : World) (ex : ProcessExecutionError) :
  compile project w = (w1, Some ex) ->
  let project' := fst (TaintPropagation.actions_for_project CFG project w0) in
  let w' := fst (compile project' w) in
  TaintPropagation.compile_error_path CFG project
  = TaintPropagation.vara_result_folder CFG project +:+ "/" +:+
    TPR.get_file_name (name project) "all" (version project)
      (run_uuid project) FSE.CompileError None
  /\ files w'
     = <[TaintPropagation.compile_error_path CFG project
         := FailureReport ex None]> (files w1)
  /\ (forall b, b <> "all" ->
        files w' !! (TaintPropagation.vara_result_folder CFG project +:+ "/"
                     +:+ TPR.get_file_name (name project) b (version project)
                           (run_uuid project) FSE.CompileError None)
        = files w1 !! (TaintPropagation.vara_result_folder CFG project +:+ "/"
                       +:+ TPR.get_file_name (name project) b
                             (version project) (run_uuid project)
                             FSE.CompileError None))
  /\ (forall other : Project,
        name other = name project -> version other = version project ->
        run_uuid other = run_uuid project ->
        TaintPropagation.compile_error_path CFG other
        = TaintPropagation.compile_error_path CFG project).
Proof.
  intros Hc. cbv zeta. rewrite configured_compile, Hc. simpl.
  split; [reflexivity|]. split; [reflexivity|]. split.
  - intros b Hb. apply lookup_insert_ne. intros H. apply Hb. symmetry.
    by apply (compile_error_name_inj CFG project).
  - intros other Hn Hv Hu. unfold TaintPropagation.compile_error_path. simpl.
    unfold TaintPropagation.RESULT_FOLDER_TEMPLATE. by rewrite Hn, Hv, Hu.
Qed.

Lemma compile_error_single_artifact_witness :
  let p := Fixture.fib Fixture.compile_fail in
  let p' := fst (TaintPropagation.actions_for_project Fixture.cfg p
                   Fixture.empty_world) in
  TaintPropagation.compile_error_path Fixture.cfg p
  = TaintPropagation.vara_result_folder Fixture.cfg p +:+ "/" +:+
    TPR.get_file_name "fib" "all" "1.0" "u1" FSE.CompileError None
  /\ files (fst (compile p' Fixture.empty_world))
     = <[TaintPropagation.compile_error_path Fixture.cfg p
         := FailureReport Fixture.cc_error None]> ∅.
Proof.
  cbv zeta.
  pose proof (compile_error_single_artifact Fixture.cfg
                (Fixture.fib Fixture.compile_fail) Fixture.empty_world
                Fixture.empty_world
                (spawn ["clang"; "fib.c"; "-o"; "fib"] Fixture.empty_world)
                Fixture.cc_error eq_refl) as H.
  cbv zeta in H. exact (conj (proj1 H) (proj1 (proj2 H))).
Defined.

(** The report name does not change with the binaries of the project. *)
Example compile_error_path_two_bins :
  TaintPropagation.compile_error_path Fixture.cfg Fixture.two_bins
  = "/out/tools/all-2.1-u7.CompileError".
Proof. reflexivity. Qed.

Lemma actions_for_project_cache_skip_witness :
  let p := Fixture.fib Fixture.compile_ok in
  let p' := TaintPropagation.configure Fixture.cfg p in
  snd (TaintPropagation.actions_for_project Fixture.cfg p Fixture.cached_world)
  = [VaraMTFACheck (Some p'); Clean p']
  /\ snd (TaintPropagation.actions_for_project Fixture.cfg p
            Fixture.empty_world)
     = [Compile p'; Extract p'; VaraMTFACheck (Some p'); Clean p'].
Proof.
  cbv zeta. split.
  - refine (proj1 (proj1 (actions_for_project_cache_skip Fixture.cfg
                            (Fixture.fib Fixture.compile_ok)
                            Fixture.cached_world) _)).
    repeat constructor.
  - refine (proj1 (proj1 (proj2 (actions_for_project_cache_skip Fixture.cfg
                                   (Fixture.fib Fixture.compile_ok)
                                   Fixture.empty_world)) _)).
    apply Exists_cons_hd. reflexivity.
Defined.

(** With two binaries and only the first one cached, the steps are built. *)
Example partial_cache_builds :
  let w := write "/cache/tools/tools-enc-2.1.bc" (Raw "BC")
             Fixture.empty_world in
  map step_kind
    (snd (TaintPropagation.actions_for_project Fixture.cfg Fixture.two_bins w))
  = [KCompile; KExtract; KAnalysis; KClean].
Proof. reflexivity. Qed.

(** ** The scenarios of the specification *)

(** Empty cache: build, extract, analyse, clean up. The analysis exits with 0
    and the verifier reports a mismatch: the artifact is of kind Failed, there
    is no success file, and the cleanup step is run and recorded. *)
Example scenario_mismatch :
  let p := Fixture.fib Fixture.compile_ok in
  let actions := snd (TaintPropagation.actions_for_project Fixture.cfg p
                        Fixture.empty_world) in
  let run := run_steps (step_action Fixture.tool_mismatch Fixture.cfg
                          Fixture.extern_ok) actions Fixture.empty_world in
  map step_kind actions = [KCompile; KExtract; KAnalysis; KClean]
  /\ TaintPropagation.outcome_kinds Fixture.cfg (fst run) p "fib"
     = [FSE.Failed]
  /\ map (fun o => (step_kind (fst o), snd o)) (snd run)
     = [(KCompile, OK); (KExtract, OK); (KAnalysis, OK); (KClean, OK)].
Proof. vm_compute. repeat split. Qed.

(** Populated cache: analyse, clean up. The chain succeeds: the success file
    is written and there is no failure report. *)
Example scenario_cached_success :
  let p := Fixture.fib Fixture.compile_ok in
  let actions := snd (TaintPropagation.actions_for_project Fixture.cfg p
                        Fixture.cached_world) in
  let run := run_steps (step_action Fixture.tool_ok Fixture.cfg
                          Fixture.extern_ok) actions Fixture.cached_world in
  map step_kind actions = [KAnalysis; KClean]
  /\ TaintPropagation.outcome_kinds Fixture.cfg (fst run) p "fib"
     = [FSE.Success]
  /\ files (fst run) !! "/out/fib/fib-1.0-u1.Success" = Some (Raw "checked").
Proof. vm_compute. repeat split. Qed.

(** * Further properties *)

(** ** [update_term] *)

Lemma chars_cons (c : ascii) (s : string) :
  Str.chars (String c s) = c :: Str.chars s.
Proof. reflexivity. Qed.



Lemma linefeed_is_space : PyStr.is_space "010" = true.
Proof. reflexivity. Qed.

Lemma prefix_linesep (c : ascii) (s : string) :
  String.prefix PyStr.linesep (String c s) = Ascii.eqb c "010".
Proof.
  change (String.prefix PyStr.linesep (String c s))
    with (if ascii_dec "010" c then String.prefix "" s else false).
  destruct (ascii_dec "010" c) as [<-|Hne].
  - by destruct s.
  - symmetry. apply Ascii.eqb_neq. congruence.
Qed.

(** Removing the line separator keeps every other character, in order. *)
Lemma chars_replace_linesep (s : string) :
  Str.chars (PyStr.replace PyStr.linesep "" s)
  = List.filter (fun c => negb (Ascii.eqb c "010")) (Str.chars s).
Proof.
  change (PyStr.replace PyStr.linesep "" s)
    with (PyStr.replace_from PyStr.linesep "" s 0).
  induction s as [|c s IH]; [reflexivity|].
  rewrite chars_cons. cbn [List.filter PyStr.replace_from].
  rewrite prefix_linesep.
  destruct (Ascii.eqb c "010"); cbn [negb].
  - exact IH.
  - by rewrite chars_cons, IH.
Qed.



Lemma replace_linesep_subset (s : string) (c : ascii) :
  c ∈ Str.chars (PyStr.replace PyStr.linesep "" s) -> c ∈ Str.chars s.
Proof.
  rewrite chars_replace_linesep, !list_elem_of_In, filter_In. by intros [? _].
Qed.

(** *** Stripping *)






Lemma rstrip_head (s : string) (c : ascii) :
  PyStr.is_space c = false ->
  head (Str.chars s) = Some c -> head (Str.chars (PyStr.rstrip s)) = Some c.
Proof.
  destruct s as [|x s]; [done|]. rewrite chars_cons. simpl head.
  intros Hc [= ->]. cbn [PyStr.rstrip]. cbv zeta. by rewrite Hc.
Qed.




Lemma strip_blank (s : string) :
  Forall (fun c => PyStr.is_space c = true) (Str.chars s) ->
  PyStr.strip s = "".
Proof.
  unfold PyStr.strip. intros H.
  assert (PyStr.lstrip s = "") as ->; [|reflexivity].
  induction s as [|x s IH]; [reflexivity|].
  rewrite chars_cons in H. apply Forall_cons in H as [Hx Hs].
  cbn [PyStr.lstrip]. rewrite Hx. by apply IH.
Qed.








(** X1: a text of white space and line separators prints nothing, in either
    mode, and the size of the terminal is not asked for. *)
Theorem update_term_blank (stty_size text : string) (enable_inline : bool)
    (stdout : string) :
  Forall (fun c => PyStr.is_space c = true) (Str.chars text) ->
  Driver.update_term stty_size text enable_inline stdout = Driver.Ok stdout.
Proof.
  intros H. unfold Driver.update_term. cbv zeta.
  rewrite strip_blank; [reflexivity|].
  apply Forall_forall. intros c Hc%replace_linesep_subset.
  by apply (proj1 (Forall_forall _ _) H).
Qed.

Lemma update_term_blank_witness :
  Driver.update_term "" (" " +:+ PyStr.linesep +:+ "  ") true "$ "
  = Driver.Ok "$ ".
Proof.
  apply (update_term_blank "" (" " +:+ PyStr.linesep +:+ "  ") true "$ ").
  repeat constructor.
Defined.





(** ** Source and install folders *)

Section Folders.

Variable env : Driver.Env.

Lemma mkdir_parents_exists (folder : string) (w : World) :
  path_exists (Driver.mkdir_parents env folder w) folder = true.
Proof.
  unfold path_exists. apply orb_true_iff. right.
  apply bool_decide_eq_true. simpl. set_solver.
Qed.

(** A folder that was missing exists after the call; one that exists leaves
    the world as it is. *)
Lemma ensure_folder (folder : string) (w : World) :
  let w' := if negb (path_exists w folder)
            then Driver.mkdir_parents env folder w else w in
  path_exists w' folder = true
  /\ files w' = files w
  /\ spawned w' = spawned w
  /\ dirs w ⊆ dirs w'
  /\ (path_exists w folder = true -> w' = w).
Proof.
  cbv zeta. destruct (path_exists w folder) eqn:E; simpl.
  - by repeat split.
  - split; [apply mkdir_parents_exists|]. repeat split; try done.
    simpl. apply union_subseteq_r.
Qed.

Lemma source_folder_eq (raw : option string) :
  Driver.source_folder env raw
  = match raw with
    | None => Driver.Path env
                (Driver.get_value_or_default env "llvm_source_dir"
                   (Driver.getcwd env +:+ "/tools_src/"))
    | Some given => Driver.Path env given
    end.
Proof.
  unfold Driver.source_folder, Driver.get_source_location. cbv zeta.
  by match goal with |- context [if ?b then _ else _] => destruct b end.
Qed.

Lemma install_folder_eq (raw : option string) :
  Driver.install_folder env raw
  = match raw with
    | None => Driver.Path env
                (Driver.get_value_or_default env "llvm_install_dir"
                   (Driver.getcwd env +:+ "/tools/" +:+ Driver.tool_name env
                    +:+ "/"))
    | Some given => Driver.Path env given
    end.
Proof.
  unfold Driver.install_folder, Driver.get_install_prefix. cbv zeta.
  by match goal with |- context [if ?b then _ else _] => destruct b end.
Qed.

Lemma get_source_location_eq (raw : option string) (w : World) :
  Driver.get_source_location env raw w
  = (Driver.source_folder env raw,
     if negb (path_exists w (Driver.source_folder env raw))
     then Driver.mkdir_parents env (Driver.source_folder env raw) w else w).
Proof.
  rewrite source_folder_eq. unfold Driver.get_source_location. cbv zeta.
  by match goal with |- context [if ?b then _ else _] => destruct b end.
Qed.

Lemma get_install_prefix_eq (raw : option string) (w : World) :
  Driver.get_install_prefix env raw w
  = (Driver.install_folder env raw,
     if negb (path_exists w (Driver.install_folder env raw))
     then Driver.mkdir_parents env (Driver.install_folder env raw) w else w).
Proof.
  rewrite install_folder_eq. unfold Driver.get_install_prefix. cbv zeta.
  by match goal with |- context [if ?b then _ else _] => destruct b end.
Qed.

(** X4: the folder [__get_source_location] and [__get_install_prefix] return
    exists when they return; the files and the folders there were are kept, a
    folder that exists already leaves the file system as it is, so that a
    second call changes nothing; a location given on the command line is the
    one returned, whatever the settings say. *)
Theorem folders_are_ensured (raw : option string) (w : World) :
  let src := Driver.get_source_location env raw w in
  let prefix := Driver.get_install_prefix env raw w in
  (path_exists (snd src) (fst src) = true
   /\ files (snd src) = files w
   /\ dirs w ⊆ dirs (snd src)
   /\ Driver.get_source_location env raw (snd src) = src)
  /\ (path_exists (snd prefix) (fst prefix) = true
      /\ files (snd prefix) = files w
      /\ dirs w ⊆ dirs (snd prefix)
      /\ Driver.get_install_prefix env raw (snd prefix) = prefix)
  /\ (forall given, raw = Some given ->
                    fst src = Driver.Path env given
                    /\ fst prefix = Driver.Path env given).
Proof.
  cbv zeta. rewrite !get_source_location_eq, !get_install_prefix_eq.
  cbn [fst snd]. split; [|split].
  - pose proof (ensure_folder (Driver.source_folder env raw) w) as H.
    cbv zeta in H. destruct H as (H1 & H2 & _ & H3 & _).
    repeat split; try done. by rewrite H1.
  - pose proof (ensure_folder (Driver.install_folder env raw) w) as H.
    cbv zeta in H. destruct H as (H1 & H2 & _ & H3 & _).
    repeat split; try done. by rewrite H1.
  - intros given ->. by rewrite source_folder_eq, install_folder_eq.
Qed.

End Folders.

(** ** [main] of the build-setup driver *)

(** X5: without an action flag [main] ends in the parser's error (exit code
    2) and has done nothing; with [--config] it saves the settings and returns,
    whatever other flags are given: no tool is set up, updated or built and no
    folder is created. *)
Theorem main_without_setup (env : Driver.Env) (upper : string -> string)
    (args : Driver.Args) (st : Driver.St) :
  (Driver.config args = false -> Driver.init args = false ->
   Driver.update args = false -> Driver.build args = false ->
   Driver.main env upper args st = (st, Driver.Raise (Driver.SystemExit 2)))
  /\ (Driver.config args = true ->
      Driver.main env upper args st
      = ({| Driver.world :=
              Driver.effect env Driver.save_config (Driver.world st);
            Driver.calls := Driver.calls st ++ [Driver.save_config] |},
         Driver.Ok tt)).
Proof.
  unfold Driver.main. split.
  - by intros -> -> -> ->.
  - by intros ->.
Qed.

Lemma main_without_setup_witness :
  Driver.main DriverFixture.env Str.upper (DriverFixture.args false false false false) DriverFixture.state
  = (DriverFixture.state, Driver.Raise (Driver.SystemExit 2))
  /\ Driver.calls
       (fst (Driver.main DriverFixture.env Str.upper (DriverFixture.args true true true true)
               DriverFixture.state))
     = [Driver.save_config].
Proof.
  split.
  - exact (proj1 (main_without_setup DriverFixture.env Str.upper
                    (DriverFixture.args false false false false) DriverFixture.state)
             eq_refl eq_refl eq_refl eq_refl).
  - exact (f_equal (fun r => Driver.calls (fst r))
             (proj2 (main_without_setup DriverFixture.env Str.upper
                       (DriverFixture.args true true true true) DriverFixture.state) eq_refl)).
Defined.

(** X6: with a tool named and a build type given, [main] returns normally and
    makes its calls in one order, whatever the order of the flags: the tool is
    created on the source folder, then set up, then upgraded, then built, each
    only if asked for. Setup uses the same source folder; setup, build and the
    verification of the build use the same install prefix; the build type is
    the parsed one; a build is followed by one verification and one message. *)
Theorem main_calls (env : Driver.Env) (upper : string -> string)
    (args : Driver.Args) (st : Driver.St) (s : string) :
  Driver.config args = false ->
  Driver.init args || Driver.update args || Driver.build args = true ->
  Driver.researchtool args = "VaRA" \/ Driver.researchtool args = "vara" ->
  Driver.buildtype args = Some s ->
  let src := Driver.source_folder env (Driver.sourcelocation args) in
  let prefix := Driver.install_folder env (Driver.installprefix args) in
  exists msg,
    snd (Driver.main env upper args st) = Driver.Ok tt
    /\ Driver.calls (fst (Driver.main env upper args st))
       = Driver.calls st ++ [Driver.VaRA src]
         ++ (if Driver.init args
             then [Driver.setup src prefix (Driver.version args)] else [])
         ++ (if Driver.update args then [Driver.upgrade] else [])
         ++ (if Driver.build args
             then [Driver.build_tool (parse_string_to_build_type upper s)
                     prefix;
                   Driver.verify prefix; Driver.print msg]
             else [])
    /\ (msg = Driver.tool_name env +:+ " was correctly installed."
        \/ msg = "Could not install " +:+ Driver.tool_name env
                 +:+ " correctly.").
Proof.
  intros Hc Hany Htool Hbt. cbv zeta. unfold Driver.main.
  rewrite Hc. cbn [orb]. rewrite Hany. cbn [negb].
  assert (String.eqb (Driver.researchtool args) "VaRA"
          || String.eqb (Driver.researchtool args) "vara" = true) as ->.
  { destruct Htool as [-> | ->]; reflexivity. }
  rewrite get_source_location_eq. cbn [negb andb].
  rewrite !andb_false_r.
  unfold Driver.build_setup_init, Driver.main_build. rewrite Hbt.
  destruct (Driver.init args), (Driver.update args), (Driver.build args);
    try discriminate;
    cbn [negb Driver.call_out Driver.world Driver.calls];
    rewrite ?get_source_location_eq, ?get_install_prefix_eq;
    cbn [negb Driver.call_out Driver.world Driver.calls];
    rewrite ?get_install_prefix_eq;
    cbn [negb Driver.call_out Driver.world Driver.calls];
    try match goal with
        | |- context [Driver.verify_install ?e ?w ?p] =>
            destruct (Driver.verify_install e w p)
        end;
    eexists;
    (split;
     [reflexivity
     |split;
      [unfold Driver.call_out; cbn [fst snd Driver.calls];
       rewrite <- ?app_assoc; reflexivity
      |eauto]]).
Qed.

Lemma main_calls_witness :
  exists msg,
    snd (Driver.main DriverFixture.env Str.upper
           (DriverFixture.args false true true true) DriverFixture.state)
    = Driver.Ok tt
    /\ Driver.calls
         (fst (Driver.main DriverFixture.env Str.upper
                 (DriverFixture.args false true true true)
                 DriverFixture.state))
       = [Driver.VaRA "/home/user/tools_src/";
          Driver.setup "/home/user/tools_src/" "/home/user/tools/VaRA/" None;
          Driver.upgrade;
          Driver.build_tool DEV "/home/user/tools/VaRA/";
          Driver.verify "/home/user/tools/VaRA/"; Driver.print msg]
    /\ (msg = "VaRA was correctly installed."
        \/ msg = "Could not install VaRA correctly.").
Proof.
  exact (main_calls DriverFixture.env Str.upper
           (DriverFixture.args false true true true) DriverFixture.state
           "dev" eq_refl eq_refl (or_intror eq_refl) eq_refl).
Defined.

(** X7: when a build is asked for and the build type has no value,
    [AttributeError] is raised, after the tool has been created and the setup
    and the upgrade that were asked for have been carried out; nothing is
    built or verified. *)
Theorem main_build_without_type (env : Driver.Env) (upper : string -> string)
    (args : Driver.Args) (st : Driver.St) :
  Driver.config args = false ->
  Driver.build args = true ->
  Driver.researchtool args = "VaRA" \/ Driver.researchtool args = "vara" ->
  Driver.buildtype args = None ->
  let src := Driver.source_folder env (Driver.sourcelocation args) in
  let prefix := Driver.install_folder env (Driver.installprefix args) in
  snd (Driver.main env upper args st) = Driver.Raise Driver.AttributeError
  /\ Driver.calls (fst (Driver.main env upper args st))
     = Driver.calls st ++ [Driver.VaRA src]
       ++ (if Driver.init args
           then [Driver.setup src prefix (Driver.version args)] else [])
       ++ (if Driver.update args then [Driver.upgrade] else []).
Proof.
  intros Hc Hb Htool Hbt. cbv zeta. unfold Driver.main.
  rewrite Hc, Hb. rewrite !orb_true_r. cbn [orb negb].
  assert (String.eqb (Driver.researchtool args) "VaRA"
          || String.eqb (Driver.researchtool args) "vara" = true) as ->.
  { destruct Htool as [-> | ->]; reflexivity. }
  rewrite get_source_location_eq. cbn [negb andb].
  rewrite !andb_false_r.
  unfold Driver.build_setup_init, Driver.main_build. rewrite Hbt.
  destruct (Driver.init args), (Driver.update args);
    cbn [negb Driver.call_out Driver.world Driver.calls];
    rewrite ?get_source_location_eq, ?get_install_prefix_eq;
    (split; [reflexivity|]);
    unfold Driver.call_out; cbn [fst snd Driver.calls];
    rewrite <- ?app_assoc; reflexivity.
Qed.

Lemma main_build_without_type_witness :
  snd (Driver.main DriverFixture.env Str.upper DriverFixture.args_without_type
         DriverFixture.state)
  = Driver.Raise Driver.AttributeError
  /\ Driver.calls
       (fst (Driver.main DriverFixture.env Str.upper
               DriverFixture.args_without_type DriverFixture.state))
     = [Driver.VaRA "/src"; Driver.setup "/src" "/opt/vara" (Some "100")].
Proof.
  exact (main_build_without_type DriverFixture.env Str.upper
           DriverFixture.args_without_type DriverFixture.state
           eq_refl eq_refl (or_introl eq_refl) eq_refl).
Defined.

(** ** The steps of the commit-annotation experiment *)

Section Closures.

Variable run : option string -> list string -> Fallible.
Variable CFG : Config.
Variable project_src : string.



(** X9: for one project, runs with different run ids are given different
    output files by [evaluate_analysis]. *)
Theorem outfile_per_run (p1 p2 : Project) :
  name p1 = name p2 ->
  run_uuid p1 <> run_uuid p2 ->
  CommitAnnotationSteps.outfile CFG p1 <> CommitAnnotationSteps.outfile CFG p2.
Proof.
  unfold CommitAnnotationSteps.outfile. intros Hn Hu H. apply Hu.
  rewrite Hn in H. do 5 apply String.app_inj in H.
  by apply app_inv_tail_str in H.
Qed.

End Closures.


Lemma outfile_per_run_witness :
  run_uuid (Fixture.fib Fixture.compile_ok)
  <> run_uuid AnnotationFixture.other_run
  /\ CommitAnnotationSteps.outfile Fixture.cfg (Fixture.fib Fixture.compile_ok)
     <> CommitAnnotationSteps.outfile Fixture.cfg AnnotationFixture.other_run.
Proof.
  assert (run_uuid (Fixture.fib Fixture.compile_ok)
          <> run_uuid AnnotationFixture.other_run) as H by discriminate.
  split; [exact H|].
  exact (outfile_per_run Fixture.cfg (Fixture.fib Fixture.compile_ok)
           AnnotationFixture.other_run eq_refl H).
Defined.

(** ** More on [VaraMTFACheck.analyze] *)

Section AnalyzeEffects.

Variable tool : list string -> string -> ProcResult.
Variable CFG : Config.
Variable project : Project.


Lemma analyze_files_other (w : World) (q : string) :
  (forall b, b ∈ BIN_NAMES project ->
             q <> TaintPropagation.result_path CFG project b
             /\ q <> TaintPropagation.error_path CFG project b) ->
  files (fst (TaintPropagation.analyze tool CFG (Some project) w)) !! q
  = files w !! q.
Proof. intros H. rewrite analyze_some. by rewrite analyze_loop_other. Qed.




(** X12: running [analyze] again with tools that behave the same leaves the
    files as the first run left them. *)
Theorem analyze_again (w : World) :
  let w1 := fst (TaintPropagation.analyze tool CFG (Some project) w) in
  files (fst (TaintPropagation.analyze tool CFG (Some project) w1)) = files w1.
Proof.
  cbv zeta. apply map_eq. intros q.
  destruct (decide (Exists (fun b =>
              q = TaintPropagation.result_path CFG project b
              \/ q = TaintPropagation.error_path CFG project b)
              (BIN_NAMES project))) as [Hex|Hnex].
  - apply Exists_exists in Hex as (b & Hb & [-> | ->]).
    + by rewrite !analyze_result_path.
    + rewrite !analyze_error_path by done.
      by destruct (retcode _ =? 0)%Z.
  - apply analyze_files_other. intros b Hb. split; intros ->; apply Hnex;
      apply Exists_exists; exists b; eauto.
Qed.

End AnalyzeEffects.

